(** * crypto-analytics-dashboard: the ETL of [src/etl/API CoinGecko.py]

    A shallow embedding of the retrying fetcher ([safe_request]), the
    market-chart loader ([fetch_market_chart]), the metrics engine
    ([compute_metrics]) and the metadata cache ([fetch_coin_metadata]),
    followed by the properties of the specification that concern them.

    Numbers.  The program computes on IEEE doubles inside pandas columns.
    A column cell is modelled by [pyfloat]: a missing value ([NaN]), a signed
    infinity, or an exact rational.  Rounding and the sign of zero are not
    modelled; every property below is structural (which cells are combined,
    in which order, and which of them are missing), so it does not depend on
    them. *)

From Stdlib Require Import ZArith QArith Qround Qpower Qfield Lqa String Ascii List Bool Lia.
From stdpp Require Import base tactics option list sorting strings pretty gmap.

Local Open Scope Z_scope.
Local Open Scope string_scope.
Local Open Scope list_scope.

(* ===================================================================== *)
(** ** Column cells *)
(* ===================================================================== *)

Inductive pyfloat : Type :=
  | NaN
  | Inf (neg : bool)
  | Fin (q : Q).

Definition isnan (x : pyfloat) : bool :=
  match x with NaN => true | _ => false end.

Definition Qltb (p q : Q) : bool := negb (Qle_bool q p).
Definition Qzerob (q : Q) : bool := Qeq_bool q 0.
Definition Qnegb (q : Q) : bool := Qltb q 0.

Definition fneg (x : pyfloat) : pyfloat :=
  match x with
  | NaN => NaN
  | Inf s => Inf (negb s)
  | Fin q => Fin (- q)
  end.

Definition fadd (x y : pyfloat) : pyfloat :=
  match x, y with
  | NaN, _ | _, NaN => NaN
  | Inf a, Inf b => if eqb a b then Inf a else NaN
  | Inf a, Fin _ => Inf a
  | Fin _, Inf b => Inf b
  | Fin p, Fin q => Fin (p + q)
  end.

Definition fsub (x y : pyfloat) : pyfloat :=
  match x, y with
  | NaN, _ | _, NaN => NaN
  | Inf a, Inf b => if eqb a b then NaN else Inf a
  | Inf a, Fin _ => Inf a
  | Fin _, Inf b => Inf (negb b)
  | Fin p, Fin q => Fin (p - q)
  end.

Definition fmul (x y : pyfloat) : pyfloat :=
  match x, y with
  | NaN, _ | _, NaN => NaN
  | Inf a, Inf b => Inf (xorb a b)
  | Inf a, Fin q | Fin q, Inf a =>
      if Qzerob q then NaN else Inf (xorb a (Qnegb q))
  | Fin p, Fin q => Fin (p * q)
  end.

(** Division as numpy does it on doubles: [x/0] is an infinity of the sign
    of [x], and [0/0] is missing. *)
Definition fdiv (x y : pyfloat) : pyfloat :=
  match x, y with
  | NaN, _ | _, NaN => NaN
  | Inf _, Inf _ => NaN
  | Inf a, Fin q => Inf (xorb a (Qnegb q))
  | Fin _, Inf _ => Fin 0
  | Fin p, Fin q =>
      if Qzerob q then (if Qzerob p then NaN else Inf (Qnegb p))
      else Fin (p / q)
  end.

(** The order of the extended line; a missing value compares with nothing. *)
Definition fleb (x y : pyfloat) : bool :=
  match x, y with
  | NaN, _ | _, NaN => false
  | Inf true, _ => true
  | _, Inf false => true
  | Inf false, _ => false
  | _, Inf true => false
  | Fin p, Fin q => Qle_bool p q
  end.

Definition fltb (x y : pyfloat) : bool :=
  match x, y with
  | NaN, _ | _, NaN => false
  | _, _ => negb (fleb y x)
  end.

(** [np.maximum]: a missing operand wins, otherwise the larger one. *)
Definition fmax (x y : pyfloat) : pyfloat :=
  match x, y with
  | NaN, _ | _, NaN => NaN
  | _, _ => if fltb x y then y else x
  end.

(** Equality of cells up to the representation of the rational. *)
Definition feqb (x y : pyfloat) : bool :=
  match x, y with
  | NaN, NaN => true
  | Inf a, Inf b => eqb a b
  | Fin p, Fin q => Qeq_bool p q
  | _, _ => false
  end.

Definition feq (x y : pyfloat) : Prop := feqb x y = true.
Definition fle (x y : pyfloat) : Prop := fleb x y = true.

Definition finite (x : pyfloat) : Prop := exists q, x = Fin q.

(* ===================================================================== *)
(** ** Series operations (pandas [Series]) *)
(* ===================================================================== *)

Abbreviation series := (list pyfloat).

(** [s.shift(1)] *)
Definition shift1 (s : series) : series :=
  match s with
  | [] => []
  | _ :: _ => NaN :: take (length s - 1) s
  end.

(** Elementwise arithmetic of two aligned series, and with a scalar. *)
Definition series_div (a b : series) : series := zip_with fdiv a b.
Definition series_sub (a b : series) : series := zip_with fsub a b.
Definition series_sub_scalar (a : series) (c : pyfloat) : series :=
  (fun x => fsub x c) <$> a.
Definition series_mul_scalar (a : series) (c : pyfloat) : series :=
  (fun x => fmul x c) <$> a.
Definition scalar_add_series (c : pyfloat) (a : series) : series :=
  (fun x => fadd c x) <$> a.

(** [s.fillna(v)] *)
Definition fillna (v : pyfloat) (s : series) : series :=
  (fun x => if isnan x then v else x) <$> s.

(** [np.<ufunc>.accumulate]: the first cell as it is, then the running
    combination from left to right. *)
Fixpoint accumulate_from (op : pyfloat -> pyfloat -> pyfloat)
    (acc : pyfloat) (s : series) : series :=
  match s with
  | [] => []
  | x :: s' => let a := op acc x in a :: accumulate_from op a s'
  end.

Definition np_accumulate (op : pyfloat -> pyfloat -> pyfloat) (s : series) : series :=
  match s with
  | [] => []
  | x :: s' => x :: accumulate_from op x s'
  end.

(** pandas' [na_accum_func] with [skipna=True], behind [cumprod] and
    [cummax]: missing cells are replaced by the neutral value, the
    accumulation runs, and the missing cells are put back. *)
Definition na_accum_func (op : pyfloat -> pyfloat -> pyfloat)
    (neutral : pyfloat) (s : series) : series :=
  let vals := (fun x => if isnan x then neutral else x) <$> s in
  let result := np_accumulate op vals in
  zip_with (fun x r => if isnan x then NaN else r) s result.

Definition cumprod (s : series) : series := na_accum_func fmul (Fin 1) s.
Definition cummax (s : series) : series := na_accum_func fmax (Inf true) s.

(** [s.rolling(window, min_periods).mean()].  pandas turns infinities into
    missing values before a rolling aggregation; the mean is taken over the
    observations present in the window, and is missing when there are fewer
    than [min_periods] of them. *)
Definition observations (w : series) : list Q :=
  omap (fun x => match x with Fin q => Some q | _ => None end) w.

Definition Qsum (l : list Q) : Q := foldl Qplus 0%Q l.

Definition window_mean (min_periods : nat) (w : series) : pyfloat :=
  let obs := observations w in
  let nobs := length obs in
  if (min_periods <=? nobs)%nat && (0 <? nobs)%nat
  then Fin (Qsum obs / inject_Z (Z.of_nat nobs))
  else NaN.

Definition window_at (window : nat) (s : series) (i : nat) : series :=
  drop (S i - window) (take (S i) s).

Definition rolling_mean (window min_periods : nat) (s : series) : series :=
  (fun i => window_mean min_periods (window_at window s i)) <$> seq 0 (length s).

(** The local function [drawdown] of [compute_metrics]. *)
Definition drawdown (s : series) : series :=
  let cummax := cummax s in
  series_div (series_sub s cummax) cummax.

(* ===================================================================== *)
(** ** Grouped transforms ([df.groupby(key)[col].transform(f)]) *)
(* ===================================================================== *)

(** The cells of the rows whose key is [k], in table order. *)
Fixpoint series_of {A : Type} (k : string) (ks : list string) (vs : list A) : list A :=
  match ks, vs with
  | k' :: ks', v :: vs' =>
      if decide (k' = k) then v :: series_of k ks' vs' else series_of k ks' vs'
  | _, _ => []
  end.

(** Put per-group results back at the rows of their group: walking the
    table, each row takes the next unused cell of its group's result. *)
Fixpoint scatter (res : string -> series) (ks : list string) : series :=
  match ks with
  | [] => []
  | k :: ks' =>
      hd NaN (res k)
        :: scatter (fun k' => if decide (k' = k) then tl (res k') else res k') ks'
  end.

Definition group_transform (f : series -> series)
    (ks : list string) (vs : series) : series :=
  scatter (fun k => f (series_of k ks vs)) ks.


(* ===================================================================== *)
(** ** Exceptions and the state-and-exception monad *)
(* ===================================================================== *)

(** The subclasses of [requests.RequestException] that the program can
    meet: failures of the transport, and the [HTTPError] that
    [Response.raise_for_status] raises. *)
Inductive request_exception : Type :=
  | ConnectionError
  | Timeout
  | HTTPError (status : Z).

Inductive exn : Type :=
  | RequestException (e : request_exception)
  | RuntimeError (msg : string)
  | KeyError (key : string)
  | TypeError
  | AttributeError
  | OSError
  | InvalidReference.

(** A computation on a state [S] that returns a value or raises; the state
    reached when it raises is kept, as it is in Python. *)
Definition M (S A : Type) : Type := S -> (exn + A) * S.

Definition ret {S A : Type} (a : A) : M S A := fun s => (inr a, s).

Definition raise {S A : Type} (e : exn) : M S A := fun s => (inl e, s).

Definition bind {S A B : Type} (c : M S A) (k : A -> M S B) : M S B :=
  fun s =>
    match c s with
    | (inr a, s') => k a s'
    | (inl e, s') => (inl e, s')
    end.

(** [try: c  except <class> as e: handler e] *)
Definition try_except {S A : Type} (c : M S A) (catches : exn -> bool)
    (handler : exn -> M S A) : M S A :=
  fun s =>
    match c s with
    | (inr a, s') => (inr a, s')
    | (inl e, s') => if catches e then handler e s' else (inl e, s')
    end.

Notation "'let*' x ':=' c 'in' k" := (bind c (fun x => k))
  (at level 10, x pattern, c at level 100, k at level 200).
Notation "c ';;;' k" := (bind c (fun _ => k))
  (at level 100, k at level 200, right associativity).

(** [except Exception]: every exception of the model is an [Exception]. *)
Definition is_Exception (e : exn) : bool := true.

(** [except requests.RequestException] *)
Definition is_RequestException (e : exn) : bool :=
  match e with RequestException _ => true | _ => false end.

(* ===================================================================== *)
(** ** Data frames on a heap *)
(* ===================================================================== *)

(** A column holds strings, calendar dates (days since the epoch) or
    numbers; a frame maps column names to columns of one length. *)
Inductive column : Type :=
  | StrCol (l : list string)
  | DateCol (l : list Z)
  | NumCol (l : series).

Abbreviation DataFrame := (gmap string column).

(** Python variables hold references: a frame lives at a location of the
    heap, and [df[c] = v] updates the frame at that location for every
    holder of the reference. *)
Abbreviation loc := nat.
Abbreviation heap := (list DataFrame).

Definition deref (l : loc) : M heap DataFrame :=
  fun h => match h !! l with
           | Some df => (inr df, h)
           | None => (inl InvalidReference, h)
           end.

Definition alloc (df : DataFrame) : M heap loc :=
  fun h => (inr (length h), h ++ [df]).

(** [df.copy()] *)
Definition frame_copy (l : loc) : M heap loc :=
  let* df := deref l in alloc df.

(** [df[c]] *)
Definition getitem (l : loc) (c : string) : M heap column :=
  let* df := deref l in
  match df !! c with
  | Some col => ret col
  | None => raise (KeyError c)
  end.

(** [df[c]] used in arithmetic: the column has to hold numbers. *)
Definition getnum (l : loc) (c : string) : M heap series :=
  let* col := getitem l c in
  match col with
  | NumCol s => ret s
  | _ => raise TypeError
  end.

(** [df.groupby(key)[c]]: the keys of the rows and the grouped cells.  The
    model groups by a column of strings, which is what [coin_id] holds. *)
Definition groupby_select (l : loc) (key c : string) : M heap (list string * series) :=
  let* kcol := getitem l key in
  let* s := getnum l c in
  match kcol with
  | StrCol ks => ret (ks, s)
  | _ => raise TypeError
  end.

(** [df[c] = col] *)
Definition setitem (l : loc) (c : string) (col : column) : M heap unit :=
  let* df := deref l in
  fun h => (inr tt, <[l := <[c := col]> df]> h).

(** [df.drop(columns=[c])]: a new frame without the column. *)
Definition frame_drop (l : loc) (c : string) : M heap loc :=
  let* df := deref l in
  match df !! c with
  | Some _ => alloc (delete c df)
  | None => raise (KeyError c)
  end.

(** A computation that leaves the frames of [h] as they are, on any heap
    that starts with them, and whose results satisfy [P]. *)
Definition appends_to (h : heap) {A : Type} (c : M heap A) (P : A -> Prop) : Prop :=
  forall rest, exists rest',
    (c (h ++ rest)).2 = h ++ rest' /\ forall a, (c (h ++ rest)).1 = inr a -> P a.

(* ===================================================================== *)
(** ** The metrics engine *)
(* ===================================================================== *)

Definition compute_metrics (df : loc) : M heap loc :=
  let* df := frame_copy df in
  let* g := groupby_select df "coin_id" "price" in
  setitem df "price_lag" (NumCol (group_transform shift1 g.1 g.2)) ;;;
  let* price := getnum df "price" in
  let* price_lag := getnum df "price_lag" in
  setitem df "daily_return"
    (NumCol (series_sub_scalar (series_div price price_lag) (Fin 1))) ;;;
  let* daily_return := getnum df "daily_return" in
  setitem df "pct_change" (NumCol (series_mul_scalar daily_return (Fin 100))) ;;;

  let* g := groupby_select df "coin_id" "price" in
  setitem df "ma_7" (NumCol (group_transform (rolling_mean 7 1) g.1 g.2)) ;;;
  let* g := groupby_select df "coin_id" "price" in
  setitem df "ma_30" (NumCol (group_transform (rolling_mean 30 1) g.1 g.2)) ;;;

  let* g := groupby_select df "coin_id" "daily_return" in
  setitem df "cum_return"
    (NumCol (group_transform
               (fun s => series_sub_scalar (cumprod (scalar_add_series (Fin 1) s)) (Fin 1))
               g.1 g.2)) ;;;

  let* g := groupby_select df "coin_id" "price" in
  setitem df "rolling_max_price" (NumCol (group_transform cummax g.1 g.2)) ;;;
  let* price := getnum df "price" in
  setitem df "drawdown" (NumCol (drawdown price)) ;;;

  let* daily_return := getnum df "daily_return" in
  setitem df "daily_return" (NumCol (fillna (Fin 0) daily_return)) ;;;
  let* pct_change := getnum df "pct_change" in
  setitem df "pct_change" (NumCol (fillna (Fin 0) pct_change)) ;;;
  frame_drop df "price_lag".

(** The frame that [compute_metrics] returns for a frame held alone. *)
Definition metrics_of (df : DataFrame) : option DataFrame :=
  match compute_metrics 0%nat [df] with
  | (inr l, h) => h !! l
  | (inl _, _) => None
  end.

(** The derived columns as [compute_metrics] computes them from the key
    column [ks] and the price column [ps], one definition per assignment. *)
Definition price_lag_col (ks : list string) (ps : series) : series :=
  group_transform shift1 ks ps.

Definition raw_daily_return_col (ks : list string) (ps : series) : series :=
  series_sub_scalar (series_div ps (price_lag_col ks ps)) (Fin 1).

Definition raw_pct_change_col (ks : list string) (ps : series) : series :=
  series_mul_scalar (raw_daily_return_col ks ps) (Fin 100).

Definition ma_col (window : nat) (ks : list string) (ps : series) : series :=
  group_transform (rolling_mean window 1) ks ps.

Definition cum_return_col (ks : list string) (ps : series) : series :=
  group_transform
    (fun s => series_sub_scalar (cumprod (scalar_add_series (Fin 1) s)) (Fin 1))
    ks (raw_daily_return_col ks ps).

Definition rolling_max_price_col (ks : list string) (ps : series) : series :=
  group_transform cummax ks ps.

Definition drawdown_col (ps : series) : series := drawdown ps.

Definition daily_return_col (ks : list string) (ps : series) : series :=
  fillna (Fin 0) (raw_daily_return_col ks ps).

Definition pct_change_col (ks : list string) (ps : series) : series :=
  fillna (Fin 0) (raw_pct_change_col ks ps).

(** The frame returned for an input frame [df] with those two columns. *)
Definition metrics_frame (ks : list string) (ps : series) (df : DataFrame) : DataFrame :=
  delete "price_lag"
    (<["pct_change" := NumCol (pct_change_col ks ps)]>
    (<["daily_return" := NumCol (daily_return_col ks ps)]>
    (<["drawdown" := NumCol (drawdown_col ps)]>
    (<["rolling_max_price" := NumCol (rolling_max_price_col ks ps)]>
    (<["cum_return" := NumCol (cum_return_col ks ps)]>
    (<["ma_30" := NumCol (ma_col 30 ks ps)]>
    (<["ma_7" := NumCol (ma_col 7 ks ps)]>
    (<["pct_change" := NumCol (raw_pct_change_col ks ps)]>
    (<["daily_return" := NumCol (raw_daily_return_col ks ps)]>
    (<["price_lag" := NumCol (price_lag_col ks ps)]> df)))))))))).

(** The names [compute_metrics] assigns to. *)
Definition derived_columns : list string :=
  ["price_lag"; "daily_return"; "pct_change"; "ma_7"; "ma_30"; "cum_return";
   "rolling_max_price"; "drawdown"].

(** A price table row by row, as [fetch_market_chart] produces it. *)
Record PriceRow : Type := mkPriceRow {
  row_date : Z;
  row_coin_id : string;
  row_vs_currency : string;
  row_price : pyfloat
}.

Definition to_frame (rows : list PriceRow) : DataFrame :=
  <["date" := DateCol (row_date <$> rows)]>
  (<["coin_id" := StrCol (row_coin_id <$> rows)]>
  (<["vs_currency" := StrCol (row_vs_currency <$> rows)]>
  (<["price" := NumCol (row_price <$> rows)]> ∅))).

(* ===================================================================== *)
(** ** The outside world: network, clock, random numbers, the snapshot *)
(* ===================================================================== *)

Definition COINGECKO_BASE : string := "https://api.coingecko.com/api/v3".
Definition DEFAULT_COINS : list string :=
  ["bitcoin"; "ethereum"; "tether"; "binancecoin"; "solana"].
Definition VS_CURRENCY : string := "usd".
Definition DAYS : string := "365".

(** A record of the metadata table. [row.get(k)] of a JSON object and a
    cell read back from the snapshot may both be absent. *)
Record MetaRow : Type := mkMetaRow {
  coin_id : option string;
  symbol : option string;
  name : option string;
  market_cap_rank : option Z
}.

(** The body of a response, by the shape the program looks at: a JSON
    object (its ["prices"] entry, a list of [[epoch_ms, price]] pairs, when
    it has one, and its other keys), a JSON array (of objects with the
    entries [id], [symbol], [name], [market_cap_rank]; [None] stands for an
    element that is not an object), or [null]. *)
Inductive payload : Type :=
  | JsonObject (prices : option (list (Z * pyfloat))) (other_keys : list string)
  | JsonArray (rows : list (option MetaRow))
  | JsonNull.

Record http_response : Type := mkResponse {
  status_code : Z;
  json : payload
}.

Record request : Type := mkRequest {
  req_url : string;
  req_params : list (string * string);
  req_headers : list (string * string);
  req_timeout : Z
}.

(** The file [META_CSV] when it exists: a table, or something that
    [pd.read_csv] cannot read. *)
Inductive csv_file : Type :=
  | Unreadable
  | Table (rows : list MetaRow).

(** What the program cannot decide: the answer to its n-th request, and
    the n-th draw of [random.random()]. *)
Record environment : Type := mkEnv {
  server : nat -> request -> request_exception + http_response;
  random : nat -> Q
}.

(** What the program has done to the world, and the snapshot on disk. *)
Record world : Type := mkWorld {
  net_log : list request;
  sleep_log : list Q;
  rng_calls : nat;
  meta_csv : option csv_file
}.

(** [requests.get(url, params=params, headers=headers, timeout=timeout)] *)
Definition requests_get (env : environment) (url : string)
    (params headers : list (string * string)) (timeout : Z) : M world http_response :=
  fun w =>
    let rq := mkRequest url params headers timeout in
    let w' := mkWorld (net_log w ++ [rq]) (sleep_log w) (rng_calls w) (meta_csv w) in
    match server env (length (net_log w)) rq with
    | inl e => (inl (RequestException e), w')
    | inr r => (inr r, w')
    end.

(** [r.raise_for_status()] of the requests library: an [HTTPError] for the
    statuses 400 to 599, nothing otherwise. *)
Definition raise_for_status (r : http_response) : M world unit :=
  if ((400 <=? status_code r) && (status_code r <? 600))%Z
  then raise (RequestException (HTTPError (status_code r)))
  else ret tt.

(** [random.uniform(a, b)], which is [a + (b - a) * random()]. *)
Definition random_uniform (env : environment) (a b : Q) : M world Q :=
  fun w =>
    (inr (a + (b - a) * random env (rng_calls w))%Q,
     mkWorld (net_log w) (sleep_log w) (S (rng_calls w)) (meta_csv w)).

(** [time.sleep(secs)] *)
Definition time_sleep (secs : Q) : M world unit :=
  fun w =>
    (inr tt, mkWorld (net_log w) (sleep_log w ++ [secs]) (rng_calls w) (meta_csv w)).

(** [os.path.exists(META_CSV)] and [pd.read_csv(META_CSV)] *)
Definition os_path_exists_META_CSV : M world bool :=
  fun w => (inr (match meta_csv w with Some _ => true | None => false end), w).

Definition pd_read_csv_META_CSV : M world (list MetaRow) :=
  fun w =>
    match meta_csv w with
    | Some (Table rows) => (inr rows, w)
    | _ => (inl OSError, w)
    end.

(** Python's [max(a, b)]: the first argument unless the second is greater. *)
Definition pymax (a b : Q) : Q := if Qltb a b then b else a.

(* ===================================================================== *)
(** ** The retrying fetcher *)
(* ===================================================================== *)

(** How one turn of a [for] loop ends: by [return], or by going on to the
    next turn ([continue], or the end of the body). *)
Inductive flow (A : Type) : Type :=
  | Return (a : A)
  | Continue.
Arguments Return {A} a.
Arguments Continue {A}.

(** [for i in range(n): body i] followed by [orelse], [i] being the value
    the loop variable starts from. *)
Fixpoint for_range {S A : Type} (n : nat) (i : nat)
    (body : nat -> M S (flow A)) (orelse : M S A) : M S A :=
  match n with
  | O => orelse
  | Datatypes.S n' =>
      let* f := body i in
      match f with
      | Return a => ret a
      | Continue => for_range n' (Datatypes.S i) body orelse
      end
  end.

Definition transient_status (status : Z) : bool :=
  bool_decide (status ∈ [429; 500; 502; 503; 504]).


(** The request that [safe_request] sends, the jitter it draws in the world
    [w], and the world after an attempt that sent the request, drew the
    jitter and slept. *)
Definition request_of (url : string) (params : list (string * string)) : request :=
  mkRequest url params
    [("User-Agent", "vinic-crypto-etl/1.0 (+https://github.com/)")] 30.

Definition jitter_in (env : environment) (w : world) : Q :=
  ((1 # 2) + ((3 # 2) - (1 # 2)) * random env (rng_calls w))%Q.

Definition wait_time (backoff : Q) (i : nat) (jitter : Q) : Q :=
  pymax 1 (backoff ^ Z.of_nat i * jitter)%Q.

Definition after_request (rq : request) (w : world) : world :=
  mkWorld (net_log w ++ [rq]) (sleep_log w) (rng_calls w) (meta_csv w).

Definition after_wait (env : environment) (backoff : Q) (i : nat) (rq : request)
    (w : world) : world :=
  mkWorld (net_log w ++ [rq])
    (sleep_log w ++ [wait_time backoff i (jitter_in env w)])
    (S (rng_calls w)) (meta_csv w).

(** The body of the loop of [safe_request]. *)
Definition safe_request_attempt (env : environment) (url : string)
    (params : list (string * string)) (backoff : Q) (i : nat)
    : M world (flow payload) :=
  let headers := [("User-Agent", "vinic-crypto-etl/1.0 (+https://github.com/)")] in
  try_except
    (let* r := requests_get env url params headers 30 in
     if (status_code r =? 200)%Z then ret (Return (json r))
     else if transient_status (status_code r) then
       let base := (backoff ^ Z.of_nat i)%Q in
       let* jitter := random_uniform env (1 # 2) (3 # 2) in
       let wait := pymax 1 (base * jitter) in
       time_sleep wait ;;;
       ret Continue
     else
       raise_for_status r ;;;
       ret Continue)
    is_RequestException
    (fun e =>
       let base := (backoff ^ Z.of_nat i)%Q in
       let* jitter := random_uniform env (1 # 2) (3 # 2) in
       let wait := pymax 1 (base * jitter) in
       time_sleep wait ;;;
       ret Continue).

Definition safe_request (env : environment) (url : string)
    (params : list (string * string)) (max_retries : Z) (backoff : Q)
    : M world payload :=
  for_range (Z.to_nat max_retries) 0
    (safe_request_attempt env url params backoff)
    (raise (RuntimeError
       ("Falha ao requisitar " +:+ url +:+ " após " +:+ pretty max_retries
          +:+ " tentativas."))).

(** The defaults of the signature: [max_retries=8], [backoff=2.0]. *)
Definition safe_request_default (env : environment) (url : string)
    (params : list (string * string)) : M world payload :=
  safe_request env url params 8 2.

(* ===================================================================== *)
(** ** Sorting and deduplication of rows *)
(* ===================================================================== *)

(** pandas sorts by several columns with a stable algorithm: rows with
    equal keys keep their order.  Insertion from the right is such a sort. *)
Fixpoint insert_sorted {A : Type} (leb : A -> A -> bool) (x : A) (l : list A) : list A :=
  match l with
  | [] => [x]
  | y :: l' => if leb x y then x :: y :: l' else y :: insert_sorted leb x l'
  end.

Definition sort_values {A : Type} (leb : A -> A -> bool) (l : list A) : list A :=
  foldr (insert_sorted leb) [] l.

Inductive keep : Type := KeepFirst | KeepLast.

(** [keep="first"]: a row stays when no row before it has its key. *)
Fixpoint drop_duplicates_first {A K : Type} `{EqDecision K}
    (key : A -> K) (seen : list K) (l : list A) : list A :=
  match l with
  | [] => []
  | x :: l' =>
      if decide (key x ∈ seen) then drop_duplicates_first key seen l'
      else x :: drop_duplicates_first key (key x :: seen) l'
  end.

(** [keep="last"]: a row stays when no row after it has its key. *)
Fixpoint drop_duplicates_last {A K : Type} `{EqDecision K}
    (key : A -> K) (l : list A) : list A :=
  match l with
  | [] => []
  | x :: l' =>
      if decide (key x ∈ key <$> l') then drop_duplicates_last key l'
      else x :: drop_duplicates_last key l'
  end.

Definition drop_duplicates {A K : Type} `{EqDecision K}
    (key : A -> K) (k : keep) (l : list A) : list A :=
  match k with
  | KeepFirst => drop_duplicates_first key [] l
  | KeepLast => drop_duplicates_last key l
  end.

(* ===================================================================== *)
(** ** The market-chart loader *)
(* ===================================================================== *)

(** [pd.to_datetime(ts, unit="ms").dt.date], as days since the epoch. *)
Definition to_date (timestamp_ms : Z) : Z := (timestamp_ms / 86400000)%Z.

(** The sort and duplicate key [["coin_id", "date"]] and its order. *)
Definition chart_key (r : PriceRow) : string * Z := (row_coin_id r, row_date r).

Definition chart_key_leb (a b : PriceRow) : bool :=
  String.ltb (row_coin_id a) (row_coin_id b)
  || (String.eqb (row_coin_id a) (row_coin_id b) && (row_date a <=? row_date b)%Z).

(** [data.get("prices", [])] *)
Definition data_get_prices {S : Type} (data : payload) : M S (list (Z * pyfloat)) :=
  match data with
  | JsonObject (Some prices) _ => ret prices
  | JsonObject None _ => ret []
  | JsonArray _ | JsonNull => raise AttributeError
  end.

(** The frame built from the price points (lines 122 to 125), one row per
    point in the order of the response, and the frame returned (lines 127
    and 128; [drop_duplicates] keeps the first row by default). *)
Definition chart_rows (coin_id vs_currency : string) (prices : list (Z * pyfloat))
    : list PriceRow :=
  (fun p => mkPriceRow (to_date p.1) coin_id vs_currency p.2) <$> prices.

Definition chart_frame (coin_id vs_currency : string) (prices : list (Z * pyfloat))
    : list PriceRow :=
  let df := chart_rows coin_id vs_currency prices in
  drop_duplicates chart_key KeepFirst (sort_values chart_key_leb df).

(** The frame in the words of the specification: after the same sort, the
    last row of each [(coin_id, date)] is the one kept. *)
Definition chart_frame_keeping_last (coin_id vs_currency : string)
    (prices : list (Z * pyfloat)) : list PriceRow :=
  let df := chart_rows coin_id vs_currency prices in
  drop_duplicates chart_key KeepLast (sort_values chart_key_leb df).

Definition fetch_market_chart (env : environment)
    (coin_id vs_currency days : string) : M world (list PriceRow) :=
  let url := COINGECKO_BASE +:+ "/coins/" +:+ coin_id +:+ "/market_chart" in
  let params := [("vs_currency", vs_currency); ("days", days); ("interval", "daily")] in
  let* data := safe_request_default env url params in
  let* prices := data_get_prices data in
  if bool_decide (prices = []) then ret []
  else ret (chart_frame coin_id vs_currency prices).

(* ===================================================================== *)
(** ** The metadata cache *)
(* ===================================================================== *)

(** Python's string methods on ASCII text (other bytes are left as they
    are, and count as uncased). *)
Definition is_lower (c : ascii) : bool :=
  let n := nat_of_ascii c in (97 <=? n)%nat && (n <=? 122)%nat.
Definition is_upper (c : ascii) : bool :=
  let n := nat_of_ascii c in (65 <=? n)%nat && (n <=? 90)%nat.
Definition to_upper (c : ascii) : ascii :=
  if is_lower c then ascii_of_nat (nat_of_ascii c - 32) else c.
Definition to_lower (c : ascii) : ascii :=
  if is_upper c then ascii_of_nat (nat_of_ascii c + 32) else c.

(** [s.upper()] *)
Fixpoint str_upper (s : string) : string :=
  match s with
  | EmptyString => EmptyString
  | String c s' => String (to_upper c) (str_upper s')
  end.

(** [s[:n]] *)
Fixpoint str_take (n : nat) (s : string) : string :=
  match n, s with
  | Datatypes.S n', String c s' => String c (str_take n' s')
  | _, _ => EmptyString
  end.

(** [s.replace(a, b)] for one-character [a] and [b] *)
Fixpoint str_replace (a b : ascii) (s : string) : string :=
  match s with
  | EmptyString => EmptyString
  | String c s' => String (if Ascii.eqb c a then b else c) (str_replace a b s')
  end.

(** [s.title()]: a cased character is put in upper case after an uncased
    one (or at the start) and in lower case after a cased one. *)
Fixpoint str_title_from (previous_is_cased : bool) (s : string) : string :=
  match s with
  | EmptyString => EmptyString
  | String c s' =>
      if is_lower c then
        String (if previous_is_cased then c else to_upper c) (str_title_from true s')
      else if is_upper c then
        String (if previous_is_cased then to_lower c else c) (str_title_from true s')
      else String c (str_title_from false s')
  end.

Definition str_title (s : string) : string := str_title_from false s.

Definition _fallback_meta_from_ids (coin_ids : list string) : list MetaRow :=
  (fun cid =>
     {| coin_id := Some cid;
        symbol := Some (str_upper (str_take 4 cid));
        name := Some (str_title (str_replace "-" " " cid));
        market_cap_rank := None |}) <$> coin_ids.

(** [str(x)] of a cell of the [coin_id] column: a missing cell prints as
    ["nan"]. *)
Definition str_of_cell (x : option string) : string :=
  match x with Some s => s | None => "nan" end.

(** The loop [for row in data: meta_rows.append({... row.get(...) ...})].
    Iterating a JSON object yields its keys, which are strings and have no
    [get]; [null] cannot be iterated. *)
Fixpoint rows_get {S : Type} (rows : list (option MetaRow)) : M S (list MetaRow) :=
  match rows with
  | [] => ret []
  | None :: _ => raise AttributeError
  | Some r :: rows' => let* rest := rows_get rows' in ret (r :: rest)
  end.

Definition meta_rows_of {S : Type} (data : payload) : M S (list MetaRow) :=
  match data with
  | JsonArray rows => rows_get rows
  | JsonObject prices other_keys =>
      match prices, other_keys with
      | None, [] => ret []
      | _, _ => raise AttributeError
      end
  | JsonNull => raise TypeError
  end.

(** [pd.concat([old, df_meta], ignore_index=True)
       .drop_duplicates(subset=["coin_id"], keep=k)] after reading [old]
    from the snapshot, inside [try: ... except Exception: pass]. *)
Definition merge_with_snapshot (k : keep) (df_meta : list MetaRow)
    : M world (list MetaRow) :=
  let* snapshot_exists := os_path_exists_META_CSV in
  if snapshot_exists : bool then
    try_except
      (let* old := pd_read_csv_META_CSV in
       ret (drop_duplicates coin_id k (old ++ df_meta)))
      is_Exception
      (fun _ => ret df_meta)
  else ret df_meta.

(** Lines 63 to 71: the snapshot, when it exists, can be read and names
    every requested id; [None] when the function goes on to the network. *)
Definition cached_snapshot (coin_ids : list string) : M world (option (list MetaRow)) :=
  let* snapshot_exists := os_path_exists_META_CSV in
  if snapshot_exists : bool then
    try_except
      (let* meta_old := pd_read_csv_META_CSV in
       let have := str_of_cell <$> (coin_id <$> meta_old) in
       let missing := filter (fun c => c ∉ have) coin_ids in
       if bool_decide (missing = []) then ret (Some meta_old) else ret None)
      is_Exception
      (fun _ => ret None)
  else ret None.

(** The request of the metadata lookup. *)
Definition markets_url : string := COINGECKO_BASE +:+ "/coins/markets".
Definition markets_params (coin_ids : list string) : list (string * string) :=
  [("vs_currency", VS_CURRENCY); ("ids", String.concat "," coin_ids)].

Definition fetch_coin_metadata (env : environment) (coin_ids : list string)
    : M world (list MetaRow) :=
  let* cached := cached_snapshot coin_ids in
  match cached with
  | Some meta_old => ret meta_old
  | None =>
      try_except
        (let url := markets_url in
         let params := markets_params coin_ids in
         time_sleep 6 ;;;
         let* data := safe_request_default env url params in
         let* meta_rows := meta_rows_of data in
         let df_meta := meta_rows in
         merge_with_snapshot KeepLast df_meta)
        is_Exception
        (fun e =>
           let df_meta := _fallback_meta_from_ids coin_ids in
           merge_with_snapshot KeepFirst df_meta)
  end.

(** The record that [_fallback_meta_from_ids] makes up for an id. *)
Definition placeholder (cid : string) : MetaRow :=
  {| coin_id := Some cid;
     symbol := Some (str_upper (str_take 4 cid));
     name := Some (str_title (str_replace "-" " " cid));
     market_cap_rank := None |}.

(* ===================================================================== *)
(** ** Further vocabulary for the properties of the fetcher *)
(* ===================================================================== *)

(** The statuses for which [raise_for_status] raises. *)
Definition error_status (status : Z) : bool :=
  ((400 <=? status) && (status <? 600))%Z.


(** The outcomes after which the loop goes on at once: a status other than
    200 for which nothing is raised. *)
Definition passed_over (o : request_exception + http_response) : bool :=
  match o with
  | inl _ => false
  | inr r =>
      negb (status_code r =? 200)%Z
      && negb (transient_status (status_code r) || error_status (status_code r))
  end.

(** The message of the [RuntimeError] of the exhausted budget. *)
Definition exhausted_message (url : string) (max_retries : Z) : string :=
  "Falha ao requisitar " +:+ url +:+ " após " +:+ pretty max_retries +:+ " tentativas.".

(* ===================================================================== *)
(** ** Further vocabulary for the properties of the metrics engine *)
(* ===================================================================== *)

(** A transform of a series that never looks ahead: the first [n] cells of
    its result are its result on the first [n] cells. *)
Definition causal (f : series -> series) : Prop :=
  forall (n : nat) (s : series), f (take n s) = take n (f s).

(** The first [n] rows of a column. *)
Definition column_take (n : nat) (c : column) : column :=
  match c with
  | StrCol l => StrCol (take n l)
  | DateCol l => DateCol (take n l)
  | NumCol l => NumCol (take n l)
  end.

(* ===================================================================== *)
(** ** The orchestrator *)
(* ===================================================================== *)

(** The state of a run: the outside world, the frames in memory, and the
    file [PRICES_CSV] when it has been written.  Creating the output
    directory and the failures of writing a file are not modelled. *)
Record etl_state : Type := mkEtl {
  etl_world : world;
  etl_heap : heap;
  prices_csv : option DataFrame
}.

Definition lift_world {A : Type} (c : M world A) : M etl_state A :=
  fun s =>
    let (r, w') := c (etl_world s) in
    (r, mkEtl w' (etl_heap s) (prices_csv s)).

Definition lift_heap {A : Type} (c : M heap A) : M etl_state A :=
  fun s =>
    let (r, h') := c (etl_heap s) in
    (r, mkEtl (etl_world s) h' (prices_csv s)).

(** [df.to_csv(PRICES_CSV, index=False)] of the frame at a location. *)
Definition to_csv_PRICES_CSV (l : loc) : M etl_state unit :=
  let* df := lift_heap (deref l) in
  fun s => (inr tt, mkEtl (etl_world s) (etl_heap s) (Some df)).

(** [meta.to_csv(META_CSV, index=False)] *)
Definition to_csv_META_CSV (meta : list MetaRow) : M etl_state unit :=
  fun s =>
    let w := etl_world s in
    (inr tt,
     mkEtl (mkWorld (net_log w) (sleep_log w) (rng_calls w) (Some (Table meta)))
           (etl_heap s) (prices_csv s)).

(** The loop of [run_etl] over the assets: an empty frame is skipped, and
    only a frame that is kept is followed by the pause of 1.1 seconds. *)
Fixpoint fetch_frames (env : environment) (days : string) (coin_ids : list string)
    (frames : list (list PriceRow)) : M world (list (list PriceRow)) :=
  match coin_ids with
  | [] => ret frames
  | cid :: coin_ids' =>
      let* df_c := fetch_market_chart env cid VS_CURRENCY days in
      if bool_decide (df_c = []) then fetch_frames env days coin_ids' frames
      else
        time_sleep (11 # 10) ;;;
        fetch_frames env days coin_ids' (frames ++ [df_c])
  end.

(** [sorted(df['coin_id'].unique().tolist())] *)
Definition sorted_unique (ks : list string) : list string :=
  sort_values String.leb (drop_duplicates_first (fun k => k) [] ks).

Definition unique_coin_ids (l : loc) : M heap (list string) :=
  let* col := getitem l "coin_id" in
  match col with
  | StrCol ks => ret (sorted_unique ks)
  | _ => raise TypeError
  end.

Definition run_etl (env : environment) (coin_ids : option (list string))
    (days : string) : M etl_state unit :=
  let coin_ids := match coin_ids with None => DEFAULT_COINS | Some ids => ids end in
  let* frames := lift_world (fetch_frames env days coin_ids []) in
  if bool_decide (frames = []) then raise (RuntimeError "Nenhum dado retornado.")
  else
    let* df_all := lift_heap (alloc (to_frame (concat frames))) in
    let* df_all := lift_heap (compute_metrics df_all) in
    to_csv_PRICES_CSV df_all ;;;
    lift_world (time_sleep 4) ;;;
    let* ids := lift_heap (unique_coin_ids df_all) in
    let* meta := lift_world (fetch_coin_metadata env ids) in
    to_csv_META_CSV meta.

(** The request that [fetch_market_chart] sends for an asset, in the
    currency [VS_CURRENCY]. *)
Definition chart_request (days coin : string) : request :=
  request_of (COINGECKO_BASE +:+ "/coins/" +:+ coin +:+ "/market_chart")
    [("vs_currency", VS_CURRENCY); ("days", days); ("interval", "daily")].

(* ===================================================================== *)
(** * Properties *)
(* ===================================================================== *)

(** ** Running [compute_metrics] on the heap *)

Section HeapRuns.
Context (h : heap) (df : DataFrame).

Lemma lookup_last : (h ++ [df]) !! length h = Some df.
Proof. by rewrite list_lookup_middle. Qed.

Lemma frame_copy_run (l : loc) :
  h !! l = Some df -> frame_copy l h = (inr (length h), h ++ [df]).
Proof. intros H. unfold frame_copy, bind, deref, alloc. by rewrite H. Qed.

Lemma getitem_last (c : string) (col : column) :
  df !! c = Some col -> getitem (length h) c (h ++ [df]) = (inr col, h ++ [df]).
Proof. intros H. unfold getitem, bind, deref. rewrite lookup_last. by rewrite H. Qed.

Lemma getnum_last (c : string) (s : series) :
  df !! c = Some (NumCol s) -> getnum (length h) c (h ++ [df]) = (inr s, h ++ [df]).
Proof. intros H. unfold getnum, bind. by rewrite (getitem_last _ _ H). Qed.

Lemma groupby_select_last (key c : string) (ks : list string) (s : series) :
  df !! key = Some (StrCol ks) -> df !! c = Some (NumCol s) ->
  groupby_select (length h) key c (h ++ [df]) = (inr (ks, s), h ++ [df]).
Proof.
  intros Hk Hc. unfold groupby_select, bind.
  by rewrite (getitem_last _ _ Hk), (getnum_last _ _ Hc).
Qed.

Lemma setitem_last (c : string) (col : column) :
  setitem (length h) c col (h ++ [df]) = (inr tt, h ++ [<[c := col]> df]).
Proof.
  unfold setitem, bind, deref. rewrite lookup_last.
  f_equal. rewrite insert_app_r_alt by lia. by rewrite Nat.sub_diag.
Qed.

Lemma frame_drop_last (c : string) :
  is_Some (df !! c) ->
  frame_drop (length h) c (h ++ [df])
  = (inr (S (length h)), h ++ [df; delete c df]).
Proof.
  intros [x H]. unfold frame_drop, bind, deref, alloc. rewrite lookup_last, H.
  rewrite length_app. simpl. rewrite Nat.add_1_r. by rewrite <- app_assoc.
Qed.
End HeapRuns.

(** One statement of [compute_metrics] executed on the working copy. *)
Ltac run_step :=
  unfold bind at 1;
  first
    [ rewrite setitem_last
    | erewrite groupby_select_last by (simplify_map_eq; done)
    | erewrite getnum_last by (simplify_map_eq; done) ];
  cbv beta iota; cbn [fst snd].

(** On a frame with a [coin_id] and a [price] column the function returns,
    leaving the heap it was given as it was and adding two frames to it:
    the working copy and the result. *)
Lemma compute_metrics_run (h : heap) (l : loc) (df : DataFrame) ks ps :
  h !! l = Some df ->
  df !! "coin_id" = Some (StrCol ks) ->
  df !! "price" = Some (NumCol ps) ->
  exists work,
    compute_metrics l h = (inr (S (length h)), h ++ [work; metrics_frame ks ps df]).
Proof.
  intros Hl Hk Hp. eexists. unfold compute_metrics.
  unfold bind at 1. rewrite (frame_copy_run _ _ _ Hl). cbv beta iota.
  do 21 run_step.
  rewrite frame_drop_last by (simplify_map_eq; eauto).
  reflexivity.
Qed.

Lemma metrics_of_frame (df : DataFrame) ks ps :
  df !! "coin_id" = Some (StrCol ks) ->
  df !! "price" = Some (NumCol ps) ->
  metrics_of df = Some (metrics_frame ks ps df).
Proof.
  intros Hk Hp.
  destruct (compute_metrics_run [df] 0%nat df ks ps eq_refl Hk Hp) as [work Hrun].
  unfold metrics_of. by rewrite Hrun.
Qed.

Lemma metrics_frame_other ks ps (df : DataFrame) (c : string) :
  c ∉ derived_columns -> metrics_frame ks ps df !! c = df !! c.
Proof.
  intros Hc. unfold metrics_frame, derived_columns in *.
  repeat (apply not_elem_of_cons in Hc as [? Hc]).
  rewrite lookup_delete_ne by done. by rewrite !lookup_insert_ne by done.
Qed.

Lemma metrics_frame_daily_return ks ps (df : DataFrame) :
  metrics_frame ks ps df !! "daily_return" = Some (NumCol (daily_return_col ks ps)).
Proof. unfold metrics_frame. by simplify_map_eq. Qed.

Lemma metrics_frame_pct_change ks ps (df : DataFrame) :
  metrics_frame ks ps df !! "pct_change" = Some (NumCol (pct_change_col ks ps)).
Proof. unfold metrics_frame. by simplify_map_eq. Qed.

Lemma metrics_frame_cum_return ks ps (df : DataFrame) :
  metrics_frame ks ps df !! "cum_return" = Some (NumCol (cum_return_col ks ps)).
Proof. unfold metrics_frame. by simplify_map_eq. Qed.

Lemma metrics_frame_rolling_max_price ks ps (df : DataFrame) :
  metrics_frame ks ps df !! "rolling_max_price"
  = Some (NumCol (rolling_max_price_col ks ps)).
Proof. unfold metrics_frame. by simplify_map_eq. Qed.

Lemma metrics_frame_drawdown ks ps (df : DataFrame) :
  metrics_frame ks ps df !! "drawdown" = Some (NumCol (drawdown_col ps)).
Proof. unfold metrics_frame. by simplify_map_eq. Qed.
Section Appends.
Context (h : heap).

Lemma appends_ret {A} (a : A) (P : A -> Prop) : P a -> appends_to h (ret a) P.
Proof. intros Ha rest. exists rest. split; [done|]. by intros a' [= <-]. Qed.

Lemma appends_raise {A} (e : exn) (P : A -> Prop) : appends_to h (raise e) P.
Proof. intros rest. exists rest. split; [done|]. by intros a' [=]. Qed.

Lemma appends_bind {A B} (c : M heap A) (k : A -> M heap B) P Q :
  appends_to h c P -> (forall a, P a -> appends_to h (k a) Q) ->
  appends_to h (bind c k) Q.
Proof.
  intros Hc Hk rest. destruct (Hc rest) as (rest1 & Hs & Hv).
  unfold bind. destruct (c (h ++ rest)) as [[e|a] h1]; simpl in *; subst h1.
  - exists rest1. split; [done|]. by intros a [=].
  - apply Hk. by apply Hv.
Qed.

Lemma appends_deref (l : loc) : appends_to h (deref l) (fun _ => True).
Proof.
  intros rest. exists rest. unfold deref.
  by destruct ((h ++ rest) !! l).
Qed.

Lemma appends_alloc (df : DataFrame) :
  appends_to h (alloc df) (fun l => length h <= l)%nat.
Proof.
  intros rest. exists (rest ++ [df]). unfold alloc. simpl. split.
  - by rewrite app_assoc.
  - intros a [= <-]. rewrite length_app. lia.
Qed.

Lemma appends_weaken {A} (c : M heap A) (P Q : A -> Prop) :
  appends_to h c P -> (forall a, P a -> Q a) -> appends_to h c Q.
Proof.
  intros Hc HPQ rest. destruct (Hc rest) as (rest' & ? & ?). exists rest'. auto.
Qed.

Lemma appends_frame_copy (l : loc) :
  appends_to h (frame_copy l) (fun l' => length h <= l')%nat.
Proof.
  unfold frame_copy. eapply appends_bind; [apply appends_deref|].
  intros df _. apply appends_alloc.
Qed.

Lemma appends_getitem (l : loc) (c : string) :
  appends_to h (getitem l c) (fun _ => True).
Proof.
  unfold getitem. eapply appends_bind; [apply appends_deref|].
  intros df _. destruct (df !! c); [by apply appends_ret | apply appends_raise].
Qed.

Lemma appends_getnum (l : loc) (c : string) :
  appends_to h (getnum l c) (fun _ => True).
Proof.
  unfold getnum. eapply appends_bind; [apply appends_getitem|].
  intros [] _; first [by apply appends_ret | apply appends_raise].
Qed.

Lemma appends_groupby_select (l : loc) (key c : string) :
  appends_to h (groupby_select l key c) (fun _ => True).
Proof.
  unfold groupby_select. eapply appends_bind; [apply appends_getitem|].
  intros kcol _. eapply appends_bind; [apply appends_getnum|].
  intros s _. destruct kcol; first [by apply appends_ret | apply appends_raise].
Qed.

Lemma appends_setitem (l : loc) (c : string) (col : column) :
  (length h <= l)%nat -> appends_to h (setitem l c col) (fun _ => True).
Proof.
  intros Hl. unfold setitem. eapply appends_bind; [apply appends_deref|].
  intros df _ rest. exists (<[(l - length h)%nat := <[c := col]> df]> rest). simpl.
  split; [|done]. by rewrite insert_app_r_alt.
Qed.

Lemma appends_frame_drop (l : loc) (c : string) :
  appends_to h (frame_drop l c) (fun _ => True).
Proof.
  unfold frame_drop. eapply appends_bind; [apply appends_deref|].
  intros df _. destruct (df !! c); [|apply appends_raise].
  eapply appends_weaken; [apply appends_alloc | done].
Qed.
End Appends.

Ltac appends_step :=
  first
    [ eapply appends_bind;
      [ first [ apply appends_getnum | apply appends_groupby_select
              | by apply appends_setitem ] | intros ? _ ]
    | apply appends_frame_drop ].

Lemma compute_metrics_appends (h : heap) (l : loc) :
  appends_to h (compute_metrics l) (fun _ => True).
Proof.
  unfold compute_metrics.
  eapply appends_bind; [apply appends_frame_copy|]. intros df Hdf.
  repeat appends_step.
Qed.

Lemma compute_metrics_heap (h : heap) (l : loc) :
  exists rest, (compute_metrics l h).2 = h ++ rest.
Proof.
  destruct (compute_metrics_appends h l []) as (rest & H & _).
  rewrite app_nil_r in H. eauto.
Qed.

(** ** The input frame and its columns (C10) *)

(** C10.  [compute_metrics] works on a copy: on a frame with a [coin_id]
    and a [price] column it returns a frame at a new location, the heap it
    was given (the input frame included) is unchanged, and every column of
    the result that the function does not assign to ([date], [coin_id],
    [vs_currency] and [price] among them) is the column of the input, cell
    for cell in the same row order. *)
Theorem compute_metrics_preserves_input (h : heap) (l : loc) (df : DataFrame)
    (ks : list string) (ps : series) :
  h !! l = Some df ->
  df !! "coin_id" = Some (StrCol ks) ->
  df !! "price" = Some (NumCol ps) ->
  exists (l' : loc) (rest : heap) (out : DataFrame),
    compute_metrics l h = (inr l', h ++ rest) /\
    (h ++ rest) !! l = Some df /\
    l' <> l /\
    (h ++ rest) !! l' = Some out /\
    (forall c, c ∉ derived_columns -> out !! c = df !! c) /\
    out !! "date" = df !! "date" /\
    out !! "coin_id" = Some (StrCol ks) /\
    out !! "vs_currency" = df !! "vs_currency" /\
    out !! "price" = Some (NumCol ps).
Proof.
  intros Hl Hk Hp.
  destruct (compute_metrics_run h l df ks ps Hl Hk Hp) as [work Hrun].
  exists (S (length h)), [work; metrics_frame ks ps df], (metrics_frame ks ps df).
  pose proof (lookup_lt_Some _ _ _ Hl) as Hlt.
  split; [done|]. split; [by rewrite lookup_app_l|]. split; [lia|].
  split.
  { rewrite lookup_app_r by lia.
    by replace (S (length h) - length h)%nat with 1%nat by lia. }
  assert (Hother : forall c, c ∉ derived_columns ->
                             metrics_frame ks ps df !! c = df !! c)
    by (intros; by apply metrics_frame_other).
  split; [done|].
  rewrite <- Hk, <- Hp.
  repeat split; apply Hother; unfold derived_columns;
    rewrite !not_elem_of_cons; repeat split; try done; apply not_elem_of_nil.
Qed.

Lemma compute_metrics_preserves_input_witness :
  let rows := [mkPriceRow 0 "x" "usd" (Fin 10); mkPriceRow 1 "x" "usd" (Fin 20)] in
  exists (l' : loc) (rest : heap) (out : DataFrame),
    compute_metrics 0%nat [to_frame rows] = (inr l', [to_frame rows] ++ rest) /\
    ([to_frame rows] ++ rest) !! 0%nat = Some (to_frame rows) /\
    l' <> 0%nat /\
    ([to_frame rows] ++ rest) !! l' = Some out /\
    (forall c, c ∉ derived_columns -> out !! c = to_frame rows !! c) /\
    out !! "date" = to_frame rows !! "date" /\
    out !! "coin_id" = Some (StrCol ["x"; "x"]) /\
    out !! "vs_currency" = to_frame rows !! "vs_currency" /\
    out !! "price" = Some (NumCol [Fin 10; Fin 20]).
Proof.
  intros rows.
  apply (compute_metrics_preserves_input [to_frame rows] 0%nat (to_frame rows)
           ["x"; "x"] [Fin 10; Fin 20]); reflexivity.
Defined.
(** ** Grouped transforms, seen from one group *)

Section Groups.
Context {A B C : Type}.

Lemma series_of_nil_r (k : string) (ks : list string) :
  series_of k ks (@nil A) = [].
Proof. by destruct ks. Qed.

Lemma series_of_fmap (f : A -> B) (k : string) (ks : list string) (vs : list A) :
  series_of k ks (f <$> vs) = f <$> series_of k ks vs.
Proof.
  revert vs. induction ks as [|k' ks IH]; intros [|v vs]; simpl; try done.
  case_decide; simpl; by rewrite IH.
Qed.

Lemma series_of_zip_with (f : A -> B -> C) (k : string) (ks : list string)
    (xs : list A) (ys : list B) :
  series_of k ks (zip_with f xs ys)
  = zip_with f (series_of k ks xs) (series_of k ks ys).
Proof.
  revert xs ys. induction ks as [|k' ks IH]; intros [|x xs] [|y ys]; simpl; try done.
  - by case_decide; destruct (series_of k ks xs).
  - case_decide; simpl; by rewrite IH.
Qed.

Lemma length_series_of (k : string) (ks : list string) (vs : list A) :
  length ks = length vs ->
  length (series_of k ks vs) = length (filter (fun k' => k' = k) ks).
Proof.
  revert vs. induction ks as [|k' ks IH]; intros [|v vs] Hlen; simpl in *; try done.
  rewrite filter_cons. case_decide; simpl; rewrite IH; auto.
Qed.
End Groups.

Lemma length_scatter (res : string -> series) (ks : list string) :
  length (scatter res ks) = length ks.
Proof. revert res. induction ks as [|k ks IH]; intros res; simpl; by rewrite ?IH. Qed.

Lemma series_of_scatter (res : string -> series) (ks : list string) (k : string) :
  (length (filter (fun k' => k' = k) ks) <= length (res k))%nat ->
  series_of k ks (scatter res ks) = take (length (filter (fun k' => k' = k) ks)) (res k).
Proof.
  revert res. induction ks as [|k' ks IH]; intros res Hlen; simpl.
  - by rewrite take_0.
  - rewrite filter_cons in *. case_decide as Hk.
    + subst k'. simpl in *. rewrite IH.
      * rewrite decide_True by done. destruct (res k); simpl in *; [lia|done].
      * rewrite decide_True by done. destruct (res k); simpl in *; lia.
    + rewrite IH; rewrite decide_False by done; done.
Qed.

(** A transform that keeps the length of a series acts on each group by
    itself: the cells it gives to the rows of [k] are [f] of the cells
    those rows had. *)
Lemma series_of_group_transform (f : series -> series) (ks : list string)
    (vs : series) (k : string) :
  length ks = length vs ->
  (forall s, length (f s) = length s) ->
  series_of k ks (group_transform f ks vs) = f (series_of k ks vs).
Proof.
  intros Hlen Hf. unfold group_transform.
  rewrite series_of_scatter.
  - rewrite <- (length_series_of k ks vs Hlen), <- Hf. apply firstn_all.
  - by rewrite Hf, (length_series_of k ks vs Hlen).
Qed.

Lemma length_group_transform (f : series -> series) (ks : list string) (vs : series) :
  length (group_transform f ks vs) = length ks.
Proof. apply length_scatter. Qed.
(** ** Cells and series *)


Lemma fle_Fin (a b : Q) : fle (Fin a) (Fin b) <-> (a <= b)%Q.
Proof. unfold fle. simpl. apply Qle_bool_iff. Qed.

Lemma fle_refl_finite (x : pyfloat) : finite x -> fle x x.
Proof. intros [q ->]. apply fle_Fin, Qle_refl. Qed.

Lemma fle_trans_finite (x y z : pyfloat) :
  finite x -> finite y -> finite z -> fle x y -> fle y z -> fle x z.
Proof.
  intros [a ->] [b ->] [c ->]. rewrite !fle_Fin. apply Qle_trans.
Qed.

Lemma fmax_finite (x y : pyfloat) :
  finite x -> finite y ->
  finite (fmax x y) /\ fle x (fmax x y) /\ fle y (fmax x y)
  /\ (fmax x y = x \/ fmax x y = y).
Proof.
  intros [a ->] [b ->]. unfold fmax, fltb. simpl.
  destruct (Qle_bool b a) eqn:E; simpl.
  - apply Qle_bool_iff in E. repeat split; eauto using fle_refl_finite.
    + by exists a.
    + apply fle_Fin, Qle_refl.
    + by apply fle_Fin.
  - assert (a <= b)%Q.
    { destruct (Qlt_le_dec a b) as [?|Hle]; [by apply Qlt_le_weak|].
      apply Qle_bool_iff in Hle. congruence. }
    repeat split; eauto.
    + by exists b.
    + by apply fle_Fin.
    + apply fle_Fin, Qle_refl.
Qed.

Lemma finite_not_nan (x : pyfloat) : finite x -> isnan x = false.
Proof. by intros [q ->]. Qed.

Lemma length_shift1 (s : series) : length (shift1 s) = length s.
Proof.
  destruct s as [|x s]; [done|]. unfold shift1.
  cbn [length]. rewrite length_take. cbn [length]. lia.
Qed.

Lemma shift1_lookup_0 (s : series) : s <> [] -> shift1 s !! 0%nat = Some NaN.
Proof. by destruct s. Qed.


Lemma length_accumulate_from op acc (s : series) :
  length (accumulate_from op acc s) = length s.
Proof. revert acc. induction s; intros; simpl; by rewrite ?IHs. Qed.

Lemma length_np_accumulate op (s : series) : length (np_accumulate op s) = length s.
Proof. destruct s; simpl; by rewrite ?length_accumulate_from. Qed.

Lemma length_na_accum_func op neutral (s : series) :
  length (na_accum_func op neutral s) = length s.
Proof.
  unfold na_accum_func.
  rewrite length_zip_with, length_np_accumulate, length_fmap. lia.
Qed.

Lemma length_cummax (s : series) : length (cummax s) = length s.
Proof. apply length_na_accum_func. Qed.

Lemma length_cumprod (s : series) : length (cumprod s) = length s.
Proof. apply length_na_accum_func. Qed.

(** Without missing cells the accumulation is the plain one. *)
Lemma na_accum_func_no_nan op neutral (s : series) :
  Forall (fun x => isnan x = false) s ->
  na_accum_func op neutral s = np_accumulate op s.
Proof.
  intros Hs. unfold na_accum_func. cbv zeta.
  assert (Hvals : (fun x => if isnan x then neutral else x) <$> s = s).
  { induction Hs as [|x s Hx _ IH]; csimpl; [done|]. by rewrite Hx, IH. }
  rewrite Hvals.
  assert (Hzip : forall r : series, length r = length s ->
             zip_with (fun x r0 => if isnan x then NaN else r0) s r = r).
  { clear Hvals. induction Hs as [|x s Hx _ IH]; intros [|y r] Hlen; simpl in *;
      try done. rewrite Hx, IH; [done|lia]. }
  apply Hzip, length_np_accumulate.
Qed.

(** The running maximum of finite cells, started from [acc]: each result
    is finite, at least [acc] and at least every cell seen so far, and it
    is [acc] or one of those cells. *)
Lemma accumulate_from_fmax (acc : pyfloat) (s : series) (i : nat) (m : pyfloat) :
  finite acc -> Forall finite s ->
  accumulate_from fmax acc s !! i = Some m ->
  finite m /\ fle acc m
  /\ (forall j x, (j <= i)%nat -> s !! j = Some x -> fle x m)
  /\ (m = acc \/ exists j, (j <= i)%nat /\ s !! j = Some m).
Proof.
  intros Hacc Hs. revert acc i Hacc.
  induction Hs as [|x s Hx Hs IH]; intros acc i Hacc Hm; [done|].
  destruct (fmax_finite acc x Hacc Hx) as (Hfin & Hle1 & Hle2 & Hor).
  destruct i as [|i]; simpl in Hm.
  - injection Hm as <-. repeat split; try done.
    + intros j y Hj Hy. assert (j = 0%nat) as -> by lia. by injection Hy as <-.
    + destruct Hor as [->| ->]; [by left|]. right. exists 0%nat. by split.
  - destruct (IH _ _ Hfin Hm) as (Hmfin & Hle & Hall & Hex).
    repeat split; [done|..].
    + by apply (fle_trans_finite acc (fmax acc x) m).
    + intros [|j] y Hj Hy.
      * injection Hy as <-. by apply (fle_trans_finite x (fmax acc x) m).
      * apply (Hall j); [lia|done].
    + destruct Hex as [->|(j & Hj & Hsj)].
      * destruct Hor as [->| ->]; [by left|]. right. exists 0%nat. split; [lia|done].
      * right. exists (S j). split; [lia|done].
Qed.

Lemma accumulate_from_fmax_mono (acc : pyfloat) (s : series) (i : nat) (a b : pyfloat) :
  finite acc -> Forall finite s ->
  accumulate_from fmax acc s !! i = Some a ->
  accumulate_from fmax acc s !! S i = Some b ->
  fle a b.
Proof.
  intros Hacc Hs. revert acc i Hacc.
  induction Hs as [|x s Hx Hs IH]; intros acc i Hacc Ha Hb; [done|].
  destruct (fmax_finite acc x Hacc Hx) as (Hfin & _).
  destruct i as [|i]; simpl in Ha, Hb.
  - injection Ha as <-.
    by destruct (accumulate_from_fmax _ _ _ _ Hfin Hs Hb) as (_ & ? & _).
  - by apply (IH (fmax acc x) i).
Qed.

(** [cummax] of a series of finite cells. *)
Lemma cummax_finite_spec (s : series) (i : nat) (m : pyfloat) :
  Forall finite s -> cummax s !! i = Some m ->
  (exists j, (j <= i)%nat /\ s !! j = Some m)
  /\ (forall j x, (j <= i)%nat -> s !! j = Some x -> fle x m).
Proof.
  intros Hs. unfold cummax.
  rewrite na_accum_func_no_nan
    by (eapply Forall_impl; [exact Hs|apply finite_not_nan]).
  destruct Hs as [|x s Hx Hs]; [done|]. simpl.
  destruct i as [|i]; simpl.
  - intros [= <-]. split; [exists 0%nat; by split|].
    intros j y Hj Hy. assert (j = 0%nat) as -> by lia. injection Hy as <-.
    by apply fle_refl_finite.
  - intros Hm.
    destruct (accumulate_from_fmax _ _ _ _ Hx Hs Hm) as (Hfin & Hle & Hall & Hex).
    split.
    + destruct Hex as [->|(j & Hj & Hsj)]; [exists 0%nat; split; [lia|done]|].
      exists (S j). split; [lia|done].
    + intros [|j] y Hj Hy; [by injection Hy as <-|].
      apply (Hall j); [lia|done].
Qed.

Lemma cummax_finite_mono (s : series) (i : nat) (a b : pyfloat) :
  Forall finite s -> cummax s !! i = Some a -> cummax s !! S i = Some b -> fle a b.
Proof.
  intros Hs. unfold cummax.
  rewrite na_accum_func_no_nan
    by (eapply Forall_impl; [exact Hs|apply finite_not_nan]).
  destruct Hs as [|x s Hx Hs]; [done|]. simpl.
  destruct i as [|i]; simpl.
  - intros [= <-] Hb.
    by destruct (accumulate_from_fmax _ _ _ _ Hx Hs Hb) as (_ & ? & _).
  - by apply accumulate_from_fmax_mono.
Qed.
Lemma cummax_finite_mono_le (s : series) (i j : nat) (a b : pyfloat) :
  Forall finite s -> (i <= j)%nat ->
  cummax s !! i = Some a -> cummax s !! j = Some b -> fle a b.
Proof.
  intros Hs Hij Ha. revert b.
  assert (Hfin : forall n c, cummax s !! n = Some c -> finite c).
  { intros n c Hc. destruct (cummax_finite_spec s n c Hs Hc) as [(j' & _ & Hj') _].
    rewrite Forall_lookup in Hs. by apply (Hs j'). }
  induction Hij as [|j Hij IH]; intros b Hb.
  - assert (a = b) as -> by congruence. apply fle_refl_finite. by apply (Hfin i).
  - destruct (lookup_lt_is_Some_2 (cummax s) j) as [c Hc].
    { apply lookup_lt_Some in Hb. lia. }
    apply (fle_trans_finite a c b); eauto.
    by apply (cummax_finite_mono s j).
Qed.

(** ** The running maximum (C9) *)

(** C9.  For every asset [k] whose prices are finite numbers, the cells of
    [rolling_max_price] on the rows of [k], in table order, are the running
    maximum of the prices on those rows: cell [i] is one of the prices at
    the positions [0..i] and is at least each of them, and the cells never
    decrease. *)
Theorem rolling_max_price_running_maximum (df : DataFrame)
    (ks : list string) (ps : series) (k : string) :
  df !! "coin_id" = Some (StrCol ks) ->
  df !! "price" = Some (NumCol ps) ->
  length ks = length ps ->
  Forall finite (series_of k ks ps) ->
  exists (out : DataFrame) (rm : series),
    metrics_of df = Some out /\
    out !! "rolling_max_price" = Some (NumCol rm) /\
    length rm = length ps /\
    let s := series_of k ks ps in
    let r := series_of k ks rm in
    length r = length s /\
    (forall i m, r !! i = Some m ->
       (exists j, (j <= i)%nat /\ s !! j = Some m)
       /\ (forall j x, (j <= i)%nat -> s !! j = Some x -> fle x m)) /\
    (forall i j a b, (i <= j)%nat -> r !! i = Some a -> r !! j = Some b -> fle a b).
Proof.
  intros Hk Hp Hlen Hfin.
  exists (metrics_frame ks ps df), (rolling_max_price_col ks ps).
  split; [by apply metrics_of_frame|].
  split; [apply metrics_frame_rolling_max_price|].
  unfold rolling_max_price_col.
  split; [by rewrite length_group_transform|].
  cbv zeta. rewrite (series_of_group_transform cummax ks ps k Hlen length_cummax).
  split; [apply length_cummax|]. split.
  - intros i m. by apply cummax_finite_spec.
  - intros i j a b. by apply cummax_finite_mono_le.
Qed.

Lemma rolling_max_price_running_maximum_witness :
  let rows := [mkPriceRow 0 "x" "usd" (Fin 10); mkPriceRow 0 "y" "usd" (Fin 50);
               mkPriceRow 1 "x" "usd" (Fin 20); mkPriceRow 2 "x" "usd" (Fin 10)] in
  let ks := ["x"; "y"; "x"; "x"] in
  let ps := [Fin 10; Fin 50; Fin 20; Fin 10] in
  exists (out : DataFrame) (rm : series),
    metrics_of (to_frame rows) = Some out /\
    out !! "rolling_max_price" = Some (NumCol rm) /\
    length rm = length ps /\
    let s := series_of "x" ks ps in
    let r := series_of "x" ks rm in
    length r = length s /\
    (forall i m, r !! i = Some m ->
       (exists j, (j <= i)%nat /\ s !! j = Some m)
       /\ (forall j x, (j <= i)%nat -> s !! j = Some x -> fle x m)) /\
    (forall i j a b, (i <= j)%nat -> r !! i = Some a -> r !! j = Some b -> fle a b).
Proof.
  intros rows ks ps.
  apply (rolling_max_price_running_maximum (to_frame rows) ks ps "x");
    [reflexivity | reflexivity | reflexivity |].
  repeat constructor; eexists; reflexivity.
Defined.
(** ** Daily return and percentage change (C5) *)

(** The daily returns of the rows of one asset are computed from the prices
    of those rows alone. *)
Lemma series_of_raw_daily_return (ks : list string) (ps : series) (k : string) :
  length ks = length ps ->
  series_of k ks (raw_daily_return_col ks ps)
  = series_sub_scalar
      (series_div (series_of k ks ps) (shift1 (series_of k ks ps))) (Fin 1).
Proof.
  intros Hlen. unfold raw_daily_return_col, price_lag_col, series_sub_scalar, series_div.
  rewrite series_of_fmap, series_of_zip_with.
  by rewrite (series_of_group_transform shift1 ks ps k Hlen length_shift1).
Qed.

Lemma series_of_daily_return (ks : list string) (ps : series) (k : string) :
  length ks = length ps ->
  series_of k ks (daily_return_col ks ps)
  = fillna (Fin 0)
      (series_sub_scalar
         (series_div (series_of k ks ps) (shift1 (series_of k ks ps))) (Fin 1)).
Proof.
  intros Hlen. unfold daily_return_col, fillna.
  by rewrite series_of_fmap, series_of_raw_daily_return.
Qed.

Lemma length_raw_daily_return (ks : list string) (ps : series) :
  length ks = length ps -> length (raw_daily_return_col ks ps) = length ps.
Proof.
  intros Hlen. unfold raw_daily_return_col, price_lag_col, series_sub_scalar, series_div.
  rewrite length_fmap, length_zip_with, length_group_transform. lia.
Qed.



Lemma pct_change_of_daily_return (ks : list string) (ps : series) :
  pct_change_col ks ps = series_mul_scalar (daily_return_col ks ps) (Fin 100).
Proof.
  unfold pct_change_col, daily_return_col, raw_pct_change_col, fillna, series_mul_scalar.
  rewrite <- !list_fmap_compose. apply list_fmap_ext.
  intros _ [| |] _; reflexivity.
Qed.



(** ** Cumulative return (C3) *)

(** The first cell of [cum_return] of every asset is missing: the product
    runs over the daily returns before [fillna], whose first cell is
    missing, and [cum_return] itself is not filled. *)
Lemma cum_return_first_is_missing (ks : list string) (ps : series) (k : string) :
  length ks = length ps ->
  series_of k ks ps <> [] ->
  series_of k ks (cum_return_col ks ps) !! 0%nat = Some NaN.
Proof.
  intros Hlen Hne. unfold cum_return_col.
  rewrite series_of_group_transform.
  - rewrite (series_of_raw_daily_return ks ps k Hlen).
    destruct (series_of k ks ps) as [|[| |] s]; done.
  - by rewrite length_raw_daily_return.
  - intros s. unfold series_sub_scalar, scalar_add_series.
    by rewrite length_fmap, length_cumprod, length_fmap.
Qed.

(** C3, at the prices 10, 20, 10 of one asset: [daily_return] is
    0, 1, -1/2, so the compounded product minus one is 0, 1, 0; the column
    [cum_return] holds a missing value, 1, 0. *)
Theorem cum_return_first_observation :
  let rows := [mkPriceRow 0 "x" "usd" (Fin 10); mkPriceRow 1 "x" "usd" (Fin 20);
               mkPriceRow 2 "x" "usd" (Fin 10)] in
  exists (out : DataFrame) (dr cr : series),
    metrics_of (to_frame rows) = Some out /\
    out !! "daily_return" = Some (NumCol dr) /\
    out !! "cum_return" = Some (NumCol cr) /\
    Forall2 feq dr [Fin 0; Fin 1; Fin (-1 # 2)] /\
    Forall2 feq cr [NaN; Fin 1; Fin 0] /\
    cr !! 0%nat = Some NaN /\
    cr !! 0%nat <> Some (fsub (fmul (Fin 1) (fadd (Fin 1) (Fin 0))) (Fin 1)).
Proof.
  intros rows.
  exists (metrics_frame ["x"; "x"; "x"] [Fin 10; Fin 20; Fin 10] (to_frame rows)),
    (daily_return_col ["x"; "x"; "x"] [Fin 10; Fin 20; Fin 10]),
    (cum_return_col ["x"; "x"; "x"] [Fin 10; Fin 20; Fin 10]).
  split; [by apply metrics_of_frame|].
  split; [apply metrics_frame_daily_return|].
  split; [apply metrics_frame_cum_return|].
  split; [by repeat constructor|].
  split; [by repeat constructor|].
  split; [reflexivity|discriminate].
Qed.

(** ** Drawdown (C1) *)

(** The column [drawdown] is computed on the whole [price] column,
    whatever the assets of the rows are: its running maximum runs over the
    rows of every asset. *)
Lemma drawdown_ignores_the_assets (df : DataFrame) (ks ks' : list string) (ps : series) :
  metrics_frame ks ps df !! "drawdown" = metrics_frame ks' ps df !! "drawdown"
  /\ metrics_frame ks ps df !! "drawdown"
     = Some (NumCol (series_div (series_sub ps (cummax ps)) (cummax ps))).
Proof. by rewrite !metrics_frame_drawdown. Qed.

(** C1, at a table of two assets, ["a"] at 100 and then ["b"] at 10: the
    running maximum of ["b"] is 10, so its drawdown would be
    (10 - 10) / 10 = 0; the column holds (10 - 100) / 100 = -9/10. *)
Theorem drawdown_two_assets :
  let rows := [mkPriceRow 0 "a" "usd" (Fin 100); mkPriceRow 0 "b" "usd" (Fin 10)] in
  exists (out : DataFrame) (rm dd : series),
    metrics_of (to_frame rows) = Some out /\
    out !! "rolling_max_price" = Some (NumCol rm) /\
    out !! "drawdown" = Some (NumCol dd) /\
    Forall2 feq rm [Fin 100; Fin 10] /\
    Forall2 feq dd [Fin 0; Fin (-9 # 10)] /\
    Forall2 feq (series_div (series_sub [Fin 100; Fin 10] rm) rm) [Fin 0; Fin 0] /\
    ~ Forall2 feq dd (series_div (series_sub [Fin 100; Fin 10] rm) rm).
Proof.
  intros rows.
  exists (metrics_frame ["a"; "b"] [Fin 100; Fin 10] (to_frame rows)),
    (rolling_max_price_col ["a"; "b"] [Fin 100; Fin 10]),
    (drawdown_col [Fin 100; Fin 10]).
  split; [by apply metrics_of_frame|].
  split; [apply metrics_frame_rolling_max_price|].
  split; [apply metrics_frame_drawdown|].
  split; [by repeat constructor|].
  split; [by repeat constructor|].
  split; [by repeat constructor|].
  intros H. apply Forall2_cons_1 in H as [_ H].
  apply Forall2_cons_1 in H as [H _]. vm_compute in H. discriminate.
Qed.
(** ** The retrying fetcher (C2, C6) *)

Lemma pymax_ge_1 (x : Q) : (1 <= pymax 1 x)%Q.
Proof.
  unfold pymax, Qltb. destruct (Qle_bool x 1) eqn:E; simpl; [apply Qle_refl|].
  destruct (Qlt_le_dec 1 x) as [?|Hle]; [by apply Qlt_le_weak|].
  apply Qle_bool_iff in Hle. congruence.
Qed.



Section Attempt.
Context (env : environment) (url : string) (params : list (string * string))
        (backoff : Q) (i : nat) (w : world).

Let rq := request_of url params.


(** A response with status 200 ends the loop with its body. *)
Lemma safe_request_attempt_200 (r : http_response) :
  server env (length (net_log w)) rq = inr r -> status_code r = 200 ->
  safe_request_attempt env url params backoff i w
  = (inr (Return (json r)), after_request rq w).
Proof.
  intros Hr Hs. unfold safe_request_attempt, try_except, bind, requests_get.
  fold (request_of url params). fold rq. rewrite Hr. simpl. by rewrite Hs.
Qed.

(** The [HTTPError] that [raise_for_status] raises for another status
    from 400 to 599 is caught by the handler of the loop: the attempt
    sleeps and the loop goes on. *)
Lemma safe_request_attempt_http_error (r : http_response) :
  server env (length (net_log w)) rq = inr r ->
  status_code r <> 200 -> transient_status (status_code r) = false ->
  400 <= status_code r < 600 ->
  safe_request_attempt env url params backoff i w
  = (inr Continue, after_wait env backoff i rq w).
Proof.
  intros Hr H200 Ht Hrange.
  unfold safe_request_attempt, try_except, bind, requests_get, raise_for_status.
  fold (request_of url params). fold rq. rewrite Hr. simpl.
  apply Z.eqb_neq in H200. rewrite H200, Ht.
  replace (400 <=? status_code r)%Z with true by (symmetry; apply Z.leb_le; lia).
  replace (status_code r <? 600)%Z with true by (symmetry; apply Z.ltb_lt; lia).
  reflexivity.
Qed.

(** For any other status nothing is raised and nothing sleeps: the loop
    goes on to the next request at once. *)
Lemma safe_request_attempt_other_status (r : http_response) :
  server env (length (net_log w)) rq = inr r ->
  status_code r <> 200 -> transient_status (status_code r) = false ->
  ~ (400 <= status_code r < 600) ->
  safe_request_attempt env url params backoff i w
  = (inr Continue, after_request rq w).
Proof.
  intros Hr H200 Ht Hrange.
  unfold safe_request_attempt, try_except, bind, requests_get, raise_for_status.
  fold (request_of url params). fold rq. rewrite Hr. simpl.
  apply Z.eqb_neq in H200. rewrite H200, Ht.
  destruct (400 <=? status_code r)%Z eqn:E1; destruct (status_code r <? 600)%Z eqn:E2;
    simpl; try reflexivity.
  apply Z.leb_le in E1. apply Z.ltb_lt in E2. lia.
Qed.
End Attempt.
Section Loop.
Context (env : environment) (url : string) (params : list (string * string))
        (backoff : Q).

Let rq := request_of url params.
Let body := safe_request_attempt env url params backoff.


Lemma for_range_200 (n i : nat) (orelse : M world payload) (w : world)
    (r : http_response) :
  server env (length (net_log w)) rq = inr r -> status_code r = 200 ->
  for_range (S n) i body orelse w = (inr (json r), after_request rq w).
Proof.
  intros Hr Hs. cbn [for_range]. unfold bind at 1. unfold body at 1.
  by rewrite (safe_request_attempt_200 _ _ _ _ _ _ r Hr Hs).
Qed.
End Loop.


(** C2, at the status 404.  The [HTTPError] of [raise_for_status] is a
    [RequestException], raised inside the [try] whose handler catches that
    class: the 404 is not raised to the caller.  Against a server that
    always answers 404, [safe_request] sends its eight requests and sleeps
    eight times before it raises the [RuntimeError] of the exhausted
    budget; against a 404 followed by a 200 it sleeps once, asks again and
    returns the body of the second response. *)
Theorem safe_request_404_is_retried :
  let w := mkWorld [] [] 0 None in
  let always_404 := mkEnv (fun _ _ => inr (mkResponse 404 JsonNull)) (fun _ => (1 # 2)%Q) in
  let then_200 :=
    mkEnv (fun n _ => inr (if n is 0%nat then mkResponse 404 JsonNull
                           else mkResponse 200 (JsonArray [])))
          (fun _ => (1 # 2)%Q) in
  (exists (msg : string) (w' : world),
     safe_request_default always_404 "u" [] w = (inl (RuntimeError msg), w') /\
     length (net_log w') = 8%nat /\ length (sleep_log w') = 8%nat)
  /\
  (exists (w' : world),
     safe_request_default then_200 "u" [] w = (inr (JsonArray []), w') /\
     length (net_log w') = 2%nat /\ length (sleep_log w') = 1%nat)
  /\
  safe_request_attempt always_404 "u" [] 2 0 w
  = (inr Continue, after_wait always_404 2 0 (request_of "u" []) w).
Proof.
  intros w always_404 then_200. split; [|split].
  - eexists _, _. split; [vm_compute; reflexivity|]. by split.
  - eexists. split; [vm_compute; reflexivity|]. by split.
  - by apply (safe_request_attempt_http_error always_404 "u" [] 2 0 w
                (mkResponse 404 JsonNull)).
Qed.
(** ** Sorting and deduplication (C4) *)

Section InsertionSort.
Context {A : Type}.

Lemma elem_of_insert_sorted (le : A -> A -> bool) (x z : A) (l : list A) :
  z ∈ insert_sorted le x l <-> z = x \/ z ∈ l.
Proof.
  induction l as [|y l IH]; simpl.
  - rewrite list_elem_of_singleton, elem_of_nil. tauto.
  - destruct (le x y); rewrite !elem_of_cons; [tauto|]. rewrite IH. tauto.
Qed.

Lemma elem_of_sort_values (le : A -> A -> bool) (z : A) (l : list A) :
  z ∈ sort_values le l <-> z ∈ l.
Proof.
  induction l as [|y l IH]; simpl; [done|].
  rewrite elem_of_insert_sorted, elem_of_cons, IH. tauto.
Qed.

Lemma insert_sorted_ext (le le' : A -> A -> bool) (x : A) (l : list A) :
  (forall y, y ∈ l -> le x y = le' x y) ->
  insert_sorted le x l = insert_sorted le' x l.
Proof.
  induction l as [|y l IH]; intros H; simpl; [done|].
  rewrite <- (H y) by apply list_elem_of_here.
  destruct (le x y); [done|]. f_equal. apply IH.
  intros z Hz. apply H. by apply list_elem_of_further.
Qed.

Lemma sort_values_ext (le le' : A -> A -> bool) (l : list A) :
  (forall x y, x ∈ l -> y ∈ l -> le x y = le' x y) ->
  sort_values le l = sort_values le' l.
Proof.
  induction l as [|x l IH]; intros H; simpl; [done|].
  fold (sort_values le l). fold (sort_values le' l).
  rewrite IH.
  - apply insert_sorted_ext. intros y Hy. apply elem_of_sort_values in Hy.
    apply H; [apply list_elem_of_here | by apply list_elem_of_further].
  - intros y z Hy Hz. apply H; by apply list_elem_of_further.
Qed.

End InsertionSort.

Section SortByDate.
Context {A : Type} (d : A -> Z).

Let leb (a b : A) : bool := (d a <=? d b)%Z.

(** The sort orders the rows. *)
Lemma insert_sorted_sorted (x : A) (l : list A) :
  StronglySorted (fun a b => d a <= d b) l ->
  StronglySorted (fun a b => d a <= d b) (insert_sorted leb x l).
Proof.
  induction 1 as [|y l Hl IH Hy]; simpl.
  - repeat constructor.
  - unfold leb at 1. destruct (d x <=? d y)%Z eqn:E.
    + apply Z.leb_le in E. constructor; [by constructor|].
      constructor; [done|]. eapply Forall_impl; [exact Hy|]. simpl. lia.
    + apply Z.leb_gt in E. constructor; [done|].
      apply Forall_forall. intros z Hz. apply elem_of_insert_sorted in Hz as [->|Hz].
      * lia.
      * rewrite Forall_forall in Hy. by apply Hy.
Qed.

Lemma sort_values_sorted (l : list A) :
  StronglySorted (fun a b => d a <= d b) (sort_values leb l).
Proof.
  induction l as [|x l IH]; simpl; [constructor|]. by apply insert_sorted_sorted.
Qed.

(** The sort is stable: the rows of one key keep their order. *)
Lemma filter_insert_sorted (z : Z) (x : A) (l : list A) :
  filter (fun a => d a = z) (insert_sorted leb x l)
  = (if decide (d x = z) then [x] else []) ++ filter (fun a => d a = z) l.
Proof.
  induction l as [|y l IH]; simpl.
  - rewrite filter_cons, filter_nil. by case_decide.
  - unfold leb at 1. destruct (d x <=? d y)%Z eqn:E.
    + rewrite (filter_cons _ x). by case_decide.
    + apply Z.leb_gt in E. rewrite !(filter_cons _ y), IH.
      repeat case_decide; simpl; try done. lia.
Qed.

Lemma filter_sort_values (z : Z) (l : list A) :
  filter (fun a => d a = z) (sort_values leb l) = filter (fun a => d a = z) l.
Proof.
  induction l as [|x l IH]; simpl; [done|].
  fold (sort_values leb l). rewrite filter_insert_sorted, IH, filter_cons.
  by case_decide.
Qed.
End SortByDate.

Section KeepFirst.
Context {A K : Type} `{EqDecision K} (key : A -> K).

Lemma elem_of_drop_duplicates_first (seen : list K) (l : list A) (x : A) :
  x ∈ drop_duplicates_first key seen l -> x ∈ l /\ key x ∉ seen.
Proof.
  revert seen. induction l as [|y l IH]; intros seen; simpl.
  - by intros ?%elem_of_nil.
  - case_decide as Hy.
    + intros [? ?]%IH. split; [by apply list_elem_of_further|done].
    + intros [->|[? Hx]%IH]%elem_of_cons.
      * split; [apply list_elem_of_here|done].
      * split; [by apply list_elem_of_further|].
        intros ?. apply Hx. by apply list_elem_of_further.
Qed.

Lemma drop_duplicates_first_NoDup (seen : list K) (l : list A) :
  NoDup (key <$> drop_duplicates_first key seen l).
Proof.
  revert seen. induction l as [|y l IH]; intros seen; simpl; [constructor|].
  case_decide; [apply IH|]. csimpl. constructor; [|apply IH].
  intros (x & Hk & Hx)%list_elem_of_fmap.
  apply elem_of_drop_duplicates_first in Hx as [_ Hx].
  apply Hx. rewrite <- Hk. apply list_elem_of_here.
Qed.

(** Of the rows of one key, the first one is kept and no other. *)
Lemma filter_drop_duplicates_first (k : K) (seen : list K) (l : list A) :
  filter (fun a => key a = k) (drop_duplicates_first key seen l)
  = if decide (k ∈ seen) then [] else take 1 (filter (fun a => key a = k) l).
Proof.
  revert seen. induction l as [|y l IH]; intros seen; simpl.
  - by case_decide.
  - case_decide as Hy.
    + rewrite IH, (filter_cons _ y). case_decide as Hk; [done|].
      case_decide as Hyk; [|done]. by subst k.
    + rewrite !(filter_cons _ y), !IH.
      repeat case_decide; simplify_eq; try done;
        rewrite ?elem_of_cons in *; try tauto.
      exfalso. intuition congruence.
Qed.

Lemma drop_duplicates_first_sorted (R : relation A) (seen : list K) (l : list A) :
  StronglySorted R l -> StronglySorted R (drop_duplicates_first key seen l).
Proof.
  intros Hl. revert seen. induction Hl as [|y l Hl IH Hy]; intros seen; simpl.
  - constructor.
  - case_decide; [apply IH|]. constructor; [apply IH|].
    apply Forall_forall. intros x [Hx _]%elem_of_drop_duplicates_first.
    rewrite Forall_forall in Hy. by apply Hy.
Qed.
End KeepFirst.

Lemma filter_ext_Forall {A : Type} (P Q : A -> Prop)
    `{!forall x, Decision (P x)} `{!forall x, Decision (Q x)} (l : list A) :
  Forall (fun x => P x <-> Q x) l -> filter P l = filter Q l.
Proof.
  induction 1 as [|x l Hx _ IH]; [done|].
  rewrite !filter_cons, IH. repeat case_decide; tauto.
Qed.

Lemma String_ltb_irrefl (s : string) : String.ltb s s = false.
Proof.
  unfold String.ltb. pose proof (String.compare_antisym s s) as H.
  by destruct (String.compare s s).
Qed.

Lemma chart_key_leb_same_coin (a b : PriceRow) :
  row_coin_id a = row_coin_id b ->
  chart_key_leb a b = (row_date a <=? row_date b)%Z.
Proof.
  intros H. unfold chart_key_leb. rewrite H, String_ltb_irrefl, String.eqb_refl.
  reflexivity.
Qed.

Lemma chart_rows_coin (coin vs : string) (prices : list (Z * pyfloat)) :
  Forall (fun r => row_coin_id r = coin /\ row_vs_currency r = vs)
         (chart_rows coin vs prices).
Proof. unfold chart_rows. by apply Forall_fmap, Forall_true. Qed.

Lemma strictly_sorted_of_NoDup (coin : string) (l : list PriceRow) :
  Forall (fun r => row_coin_id r = coin) l ->
  NoDup (chart_key <$> l) ->
  StronglySorted (fun a b => row_date a <= row_date b) l ->
  StronglySorted (fun a b => row_date a < row_date b) l.
Proof.
  intros Hc Hnd Hs. induction Hs as [|x l Hl IH Hx]; [constructor|].
  apply Forall_cons in Hc as [Hcx Hc]. csimpl in Hnd.
  apply NoDup_cons in Hnd as [Hnx Hnd].
  constructor; [by apply IH|].
  rewrite Forall_forall in Hx, Hc. apply Forall_forall. intros y Hy.
  pose proof (Hx y Hy) as Hle.
  destruct (decide (row_date x = row_date y)) as [Heq|]; [|lia].
  exfalso. apply Hnx. apply list_elem_of_fmap. exists y. split; [|done].
  unfold chart_key. by rewrite Hcx, (Hc y Hy), Heq.
Qed.

(** C4, as the code has it.  The frame of [fetch_market_chart] holds, for
    each calendar date among the points of the response, exactly one row:
    the one of the first point of that date in the order of the response
    (the sort is stable and [drop_duplicates] keeps the first row of a
    key).  The rows are in strictly ascending order of date, no
    [(coin_id, date)] occurs twice, and every row carries the asset and the
    currency asked for. *)
Theorem chart_frame_keeps_first (coin vs : string) (prices : list (Z * pyfloat)) :
  let rows := chart_rows coin vs prices in
  let out := chart_frame coin vs prices in
  (forall d : Z,
     filter (fun r => row_date r = d) out
     = take 1 (filter (fun r => row_date r = d) rows)) /\
  NoDup (chart_key <$> out) /\
  StronglySorted (fun a b => row_date a < row_date b) out /\
  Forall (fun r => row_coin_id r = coin /\ row_vs_currency r = vs) out.
Proof.
  intros rows out.
  pose proof (chart_rows_coin coin vs prices) as Hrows. fold rows in Hrows.
  set (dleb := fun a b : PriceRow => (row_date a <=? row_date b)%Z).
  assert (Hsort : sort_values chart_key_leb rows = sort_values dleb rows).
  { apply (sort_values_ext chart_key_leb dleb rows).
    intros x y Hx Hy. apply chart_key_leb_same_coin.
    rewrite Forall_forall in Hrows.
    destruct (Hrows x Hx) as [-> _]. by destruct (Hrows y Hy) as [-> _]. }
  assert (Hout : out = drop_duplicates_first chart_key [] (sort_values dleb rows)).
  { unfold out, chart_frame, drop_duplicates. fold rows. by rewrite Hsort. }
  assert (Hsorted : Forall (fun r => row_coin_id r = coin /\ row_vs_currency r = vs)
                           (sort_values dleb rows)).
  { apply Forall_forall. intros r Hr. apply elem_of_sort_values in Hr.
    rewrite Forall_forall in Hrows. by apply Hrows. }
  assert (Hcoin : Forall (fun r => row_coin_id r = coin /\ row_vs_currency r = vs) out).
  { rewrite Hout. apply Forall_forall.
    intros r [Hr _]%elem_of_drop_duplicates_first.
    rewrite Forall_forall in Hsorted. by apply Hsorted. }
  assert (Hkey : forall (d : Z) (l : list PriceRow),
             Forall (fun r => row_coin_id r = coin /\ row_vs_currency r = vs) l ->
             filter (fun r => row_date r = d) l
             = filter (fun r => chart_key r = (coin, d)) l).
  { intros d l Hl. apply filter_ext_Forall. eapply Forall_impl; [exact Hl|].
    intros r [Hc _]. unfold chart_key. rewrite Hc. split; [by intros ->|congruence]. }
  split; [|split; [|split]].
  - intros d. rewrite (Hkey d out Hcoin), Hout, filter_drop_duplicates_first.
    rewrite decide_False by apply not_elem_of_nil.
    rewrite <- (Hkey d _ Hsorted). unfold dleb. by rewrite filter_sort_values.
  - rewrite Hout. apply drop_duplicates_first_NoDup.
  - apply (strictly_sorted_of_NoDup coin).
    + eapply Forall_impl; [exact Hcoin|]. by intros r [? _].
    + rewrite Hout. apply drop_duplicates_first_NoDup.
    + rewrite Hout. apply drop_duplicates_first_sorted.
      unfold dleb. apply (sort_values_sorted row_date).
  - exact Hcoin.
Qed.

(** C4 as the specification words it fails on two points of one day: the
    code keeps the price of the first of them, not of the last. *)
Lemma chart_frame_keeping_last_counterexample :
  ~ (forall (coin vs : string) (prices : list (Z * pyfloat)),
       chart_frame coin vs prices = chart_frame_keeping_last coin vs prices).
Proof.
  intros H. specialize (H "x" "usd" [(0, Fin 1); (1000, Fin 2)]).
  vm_compute in H. discriminate.
Qed.

Example chart_frame_two_points_of_one_day :
  chart_frame "x" "usd" [(0, Fin 1); (1000, Fin 2)] = [mkPriceRow 0 "x" "usd" (Fin 1)]
  /\ chart_frame_keeping_last "x" "usd" [(0, Fin 1); (1000, Fin 2)]
     = [mkPriceRow 0 "x" "usd" (Fin 2)].
Proof. split; reflexivity. Qed.
(** ** The metadata cache (C7, C8) *)

Lemma cached_snapshot_world (coin_ids : list string) (w : world) :
  exists cached, cached_snapshot coin_ids w = (inr cached, w).
Proof.
  unfold cached_snapshot, bind, os_path_exists_META_CSV, try_except,
    pd_read_csv_META_CSV.
  destruct (meta_csv w) as [[|rows]|] eqn:E; simpl; rewrite ?E; simpl; eauto.
  match goal with |- context [bool_decide ?P] => destruct (bool_decide P) end;
    simpl; eauto.
Qed.

Lemma cached_snapshot_hit (coin_ids : list string) (w : world) (rows : list MetaRow) :
  meta_csv w = Some (Table rows) ->
  (forall c, c ∈ coin_ids -> Some c ∈ coin_id <$> rows) ->
  cached_snapshot coin_ids w = (inr (Some rows), w).
Proof.
  intros Hcsv Hall.
  unfold cached_snapshot, bind, os_path_exists_META_CSV, try_except,
    pd_read_csv_META_CSV.
  rewrite Hcsv. simpl. rewrite Hcsv. simpl.
  rewrite bool_decide_eq_true_2; [done|].
  apply elem_of_nil_inv. intros c [Hnot Hc]%list_elem_of_filter. apply Hnot.
  apply list_elem_of_fmap. exists (Some c). split; [done|]. by apply Hall.
Qed.

(** C8.  When the snapshot can be read and holds a record for every
    requested id, [fetch_coin_metadata] returns the snapshot as it is and
    leaves the world as it was: no request is sent and nothing sleeps. *)
Theorem fetch_coin_metadata_cache_hit (env : environment) (coin_ids : list string)
    (w : world) (rows : list MetaRow) :
  meta_csv w = Some (Table rows) ->
  (forall c, c ∈ coin_ids -> Some c ∈ coin_id <$> rows) ->
  fetch_coin_metadata env coin_ids w = (inr rows, w)
  /\ net_log (fetch_coin_metadata env coin_ids w).2 = net_log w.
Proof.
  intros Hcsv Hall.
  assert (H : fetch_coin_metadata env coin_ids w = (inr rows, w)).
  { unfold fetch_coin_metadata. unfold bind at 1.
    by rewrite (cached_snapshot_hit coin_ids w rows Hcsv Hall). }
  by rewrite H.
Qed.

Lemma fetch_coin_metadata_cache_hit_witness :
  let env := mkEnv (fun _ _ => inl ConnectionError) (fun _ => (1 # 2)%Q) in
  let rows := [mkMetaRow (Some "bitcoin") (Some "btc") (Some "Bitcoin") (Some 1);
               mkMetaRow (Some "ethereum") (Some "eth") (Some "Ethereum") (Some 2)] in
  let w := mkWorld [] [] 0 (Some (Table rows)) in
  fetch_coin_metadata env ["ethereum"; "bitcoin"] w = (inr rows, w)
  /\ net_log (fetch_coin_metadata env ["ethereum"; "bitcoin"] w).2 = net_log w.
Proof.
  intros env rows w.
  apply (fetch_coin_metadata_cache_hit env ["ethereum"; "bitcoin"] w rows);
    [reflexivity|].
  intros c Hc.
  repeat (apply elem_of_cons in Hc as [->|Hc];
          [apply (bool_decide_unpack _); vm_compute; exact I|]).
  by apply elem_of_nil in Hc.
Defined.
Lemma merge_with_snapshot_run (k : keep) (df_meta : list MetaRow) (w : world) :
  merge_with_snapshot k df_meta w
  = (inr (match meta_csv w with
          | Some (Table old) => drop_duplicates coin_id k (old ++ df_meta)
          | _ => df_meta
          end), w).
Proof.
  unfold merge_with_snapshot, bind, os_path_exists_META_CSV, try_except,
    pd_read_csv_META_CSV.
  destruct (meta_csv w) as [[|rows]|] eqn:E; simpl; rewrite ?E; reflexivity.
Qed.

(** The fetcher does not touch the snapshot. *)
Lemma safe_request_attempt_meta_csv (env : environment) (url : string)
    (params : list (string * string)) (backoff : Q) (i : nat) (w : world) :
  meta_csv (safe_request_attempt env url params backoff i w).2 = meta_csv w.
Proof.
  unfold safe_request_attempt, try_except, bind, requests_get, raise_for_status.
  destruct (server env _ _) as [e|r]; simpl; [done|].
  destruct (status_code r =? 200)%Z; simpl; [done|].
  destruct (transient_status (status_code r)); simpl; [done|].
  destruct ((400 <=? status_code r)%Z && (status_code r <? 600)%Z); done.
Qed.

Lemma for_range_meta_csv {A : Type} (body : nat -> M world (flow A))
    (orelse : M world A) (n i : nat) (w : world) :
  (forall i w, meta_csv (body i w).2 = meta_csv w) ->
  (forall w, meta_csv (orelse w).2 = meta_csv w) ->
  meta_csv (for_range n i body orelse w).2 = meta_csv w.
Proof.
  intros Hbody Horelse. revert i w.
  induction n as [|n IH]; intros i w; simpl; [apply Horelse|].
  unfold bind. pose proof (Hbody i w) as Hb.
  destruct (body i w) as [[e|[a|]] w1]; simpl in *; try done.
  by rewrite IH.
Qed.

Lemma safe_request_meta_csv (env : environment) (url : string)
    (params : list (string * string)) (max_retries : Z) (backoff : Q) (w : world) :
  meta_csv (safe_request env url params max_retries backoff w).2 = meta_csv w.
Proof.
  unfold safe_request. apply for_range_meta_csv; [|done].
  intros. apply safe_request_attempt_meta_csv.
Qed.

Lemma fetch_coin_metadata_returns (env : environment) (coin_ids : list string)
    (w : world) :
  exists (df : list MetaRow) (w' : world),
    fetch_coin_metadata env coin_ids w = (inr df, w').
Proof.
  unfold fetch_coin_metadata. unfold bind at 1.
  destruct (cached_snapshot_world coin_ids w) as [[rows|] ->]; [by eexists _, _|].
  unfold try_except.
  match goal with |- context [match ?c w with _ => _ end] =>
    destruct (c w) as [[e|df] w1] end.
  - simpl. rewrite merge_with_snapshot_run. by eexists _, _.
  - by eexists _, _.
Qed.

Lemma fetch_coin_metadata_fallback (env : environment) (coin_ids : list string)
    (w w1 : world) (e : exn) :
  cached_snapshot coin_ids w = (inr None, w) ->
  safe_request_default env markets_url (markets_params coin_ids) (time_sleep 6 w).2
  = (inl e, w1) ->
  fetch_coin_metadata env coin_ids w
  = (inr (match meta_csv w with
          | Some (Table old) =>
              drop_duplicates coin_id KeepFirst (old ++ _fallback_meta_from_ids coin_ids)
          | _ => _fallback_meta_from_ids coin_ids
          end), w1).
Proof.
  intros Hmiss Hfail.
  assert (Hcsv : meta_csv w1 = meta_csv w).
  { pose proof (safe_request_meta_csv env markets_url (markets_params coin_ids)
                  8 2 (time_sleep 6 w).2) as H.
    unfold safe_request_default in Hfail. rewrite Hfail in H. exact H. }
  unfold fetch_coin_metadata. unfold bind at 1. rewrite Hmiss.
  unfold try_except. unfold bind at 1. unfold time_sleep at 1.
  unfold bind at 1. simpl in Hfail. rewrite Hfail. cbv beta iota.
  simpl. by rewrite merge_with_snapshot_run, Hcsv.
Qed.
Lemma fallback_is_placeholders (coin_ids : list string) :
  _fallback_meta_from_ids coin_ids = placeholder <$> coin_ids.
Proof. reflexivity. Qed.

Lemma take_1_filter_placeholders (c : string) (coin_ids : list string) :
  c ∈ coin_ids ->
  take 1 (filter (fun r => coin_id r = Some c) (placeholder <$> coin_ids))
  = [placeholder c].
Proof.
  induction coin_ids as [|x ids IH]; [by intros ?%elem_of_nil|].
  intros Hc. csimpl. rewrite filter_cons. simpl. case_decide as Hx.
  - by injection Hx as ->.
  - apply elem_of_cons in Hc as [->|Hc]; [done|]. by apply IH.
Qed.

(** C7.  [fetch_coin_metadata] returns a table in every world and for
    every list of ids: it never raises.  When the snapshot does not answer
    the request and [safe_request] raises, the table returned is made of
    the placeholders of the ids (symbol: the first four characters of the
    id in upper case; name: the id with hyphens as spaces, in title case;
    no rank), merged with the snapshot when it can be read: a key of the
    snapshot keeps its first persisted record, and an id that the snapshot
    does not hold gets its placeholder. *)
Theorem fetch_coin_metadata_never_raises (env : environment)
    (coin_ids : list string) (w : world) :
  (exists (df : list MetaRow) (w' : world),
     fetch_coin_metadata env coin_ids w = (inr df, w'))
  /\
  (forall (e : exn) (w1 : world),
     cached_snapshot coin_ids w = (inr None, w) ->
     safe_request_default env markets_url (markets_params coin_ids) (time_sleep 6 w).2
     = (inl e, w1) ->
     exists df : list MetaRow,
       fetch_coin_metadata env coin_ids w = (inr df, w1) /\
       match meta_csv w with
       | Some (Table old) =>
           df = drop_duplicates coin_id KeepFirst (old ++ (placeholder <$> coin_ids)) /\
           (forall k r, head (filter (fun r => coin_id r = k) old) = Some r ->
                        filter (fun r => coin_id r = k) df = [r]) /\
           (forall c, c ∈ coin_ids ->
                      filter (fun r => coin_id r = Some c) old = [] ->
                      filter (fun r => coin_id r = Some c) df = [placeholder c])
       | _ => df = placeholder <$> coin_ids
       end).
Proof.
  split; [apply fetch_coin_metadata_returns|].
  intros e w1 Hmiss Hfail.
  pose proof (fetch_coin_metadata_fallback env coin_ids w w1 e Hmiss Hfail) as Hrun.
  eexists. split; [exact Hrun|].
  rewrite fallback_is_placeholders.
  destruct (meta_csv w) as [[|old]|]; try done.
  split; [done|]. unfold drop_duplicates. split.
  - intros k r Hr. rewrite filter_drop_duplicates_first.
    rewrite decide_False by apply not_elem_of_nil. rewrite filter_app.
    revert Hr. destruct (filter (fun r0 => coin_id r0 = k) old); [done|].
    by intros [= ->].
  - intros c Hc Hold. rewrite filter_drop_duplicates_first.
    rewrite decide_False by apply not_elem_of_nil. rewrite filter_app, Hold.
    by apply take_1_filter_placeholders.
Qed.

Lemma fetch_coin_metadata_never_raises_witness :
  let env := mkEnv (fun _ _ => inl Timeout) (fun _ => (1 # 2)%Q) in
  let old := [mkMetaRow (Some "bitcoin") (Some "btc") (Some "Bitcoin") (Some 1)] in
  let w := mkWorld [] [] 0 (Some (Table old)) in
  exists (w1 : world),
    fetch_coin_metadata env ["bitcoin"; "usd-coin"] w
    = (inr [mkMetaRow (Some "bitcoin") (Some "btc") (Some "Bitcoin") (Some 1);
            mkMetaRow (Some "usd-coin") (Some "USD-") (Some "Usd Coin") None], w1).
Proof.
  intros env old w.
  destruct (safe_request_default env markets_url (markets_params ["bitcoin"; "usd-coin"])
              (time_sleep 6 w).2) as [[e|p] w1] eqn:Hfail.
  - exists w1.
    destruct (proj2 (fetch_coin_metadata_never_raises env ["bitcoin"; "usd-coin"] w)
                e w1 eq_refl Hfail) as (df & Hrun & Hdf & _).
    rewrite Hrun, Hdf. reflexivity.
  - vm_compute in Hfail. discriminate.
Defined.

(* ===================================================================== *)
(** * Further properties of the code *)
(* ===================================================================== *)

(** ** The retrying fetcher: every outcome of an attempt *)

Lemma safe_request_attempt_cases (env : environment) (url : string)
    (params : list (string * string)) (backoff : Q) (i : nat) (w : world) :
  safe_request_attempt env url params backoff i w
  = match server env (length (net_log w)) (request_of url params) with
    | inl _ => (inr Continue, after_wait env backoff i (request_of url params) w)
    | inr r =>
        if (status_code r =? 200)%Z
        then (inr (Return (json r)), after_request (request_of url params) w)
        else if transient_status (status_code r) || error_status (status_code r)
        then (inr Continue, after_wait env backoff i (request_of url params) w)
        else (inr Continue, after_request (request_of url params) w)
    end.
Proof.
  unfold safe_request_attempt, try_except, bind, requests_get, raise_for_status,
    error_status.
  fold (request_of url params).
  destruct (server env (length (net_log w)) (request_of url params)) as [e|r];
    simpl; [done|].
  destruct (status_code r =? 200)%Z; simpl; [done|].
  destruct (transient_status (status_code r)); simpl; [done|].
  destruct ((400 <=? status_code r)%Z && (status_code r <? 600)%Z); done.
Qed.


Lemma safe_request_attempt_passed_over (env : environment) (url : string)
    (params : list (string * string)) (backoff : Q) (i : nat) (w : world) :
  passed_over (server env (length (net_log w)) (request_of url params)) = true ->
  safe_request_attempt env url params backoff i w
  = (inr Continue, after_request (request_of url params) w).
Proof.
  rewrite safe_request_attempt_cases. unfold passed_over.
  destruct (server env _ _) as [e|r]; [done|].
  destruct (status_code r =? 200)%Z; simpl; [done|].
  by destruct (transient_status (status_code r) || error_status (status_code r)).
Qed.

Lemma for_range_S {S A : Type} (n i : nat) (body : nat -> M S (flow A))
    (orelse : M S A) (s : S) :
  for_range (Datatypes.S n) i body orelse s
  = match body i s with
    | (inr (Return a), s1) => (inr a, s1)
    | (inr Continue, s1) => for_range n (Datatypes.S i) body orelse s1
    | (inl e, s1) => (inl e, s1)
    end.
Proof.
  cbn [for_range]. unfold bind. by destruct (body i s) as [[e|[a|]] s1].
Qed.

(** What a run of the loop does to the world, and how it ends: [k]
    requests were sent, all the same; at most one sleep per request, each
    of a second at least; the run ends with the body of a 200 response to
    the last request, or with the [orelse] exception after [n] requests. *)
Lemma safe_request_loop_spec (env : environment) (url : string)
    (params : list (string * string)) (backoff : Q) (e : exn) (n i : nat)
    (w w' : world) (res : exn + payload) :
  for_range n i (safe_request_attempt env url params backoff) (raise e) w = (res, w') ->
  exists (k : nat) (sleeps : list Q),
    (k <= n)%nat /\
    net_log w' = net_log w ++ replicate k (request_of url params) /\
    sleep_log w' = sleep_log w ++ sleeps /\
    Forall (fun s => (1 <= s)%Q) sleeps /\
    rng_calls w' = (rng_calls w + length sleeps)%nat /\
    meta_csv w' = meta_csv w /\
    match res with
    | inl e' => e' = e /\ k = n /\ (length sleeps <= k)%nat
    | inr b =>
        (length sleeps < k)%nat /\
        exists r, server env (length (net_log w) + k - 1)%nat (request_of url params) = inr r
                  /\ status_code r = 200 /\ json r = b
    end.
Proof.
  set (rq := request_of url params).
  revert i w. induction n as [|n IH]; intros i w Hrun.
  - injection Hrun as <- <-. exists 0%nat, []. simpl. rewrite !app_nil_r.
    repeat split; try done; lia.
  - rewrite for_range_S, safe_request_attempt_cases in Hrun. fold rq in Hrun.
    assert (Hwait :
      for_range n (S i) (safe_request_attempt env url params backoff) (raise e)
        (after_wait env backoff i rq w) = (res, w') ->
      exists (k : nat) (sleeps : list Q),
        (k <= S n)%nat /\
        net_log w' = net_log w ++ replicate k rq /\
        sleep_log w' = sleep_log w ++ sleeps /\
        Forall (fun s => (1 <= s)%Q) sleeps /\
        rng_calls w' = (rng_calls w + length sleeps)%nat /\
        meta_csv w' = meta_csv w /\
        match res with
        | inl e' => e' = e /\ k = S n /\ (length sleeps <= k)%nat
        | inr b =>
            (length sleeps < k)%nat /\
            exists r, server env (length (net_log w) + k - 1)%nat rq = inr r
                      /\ status_code r = 200 /\ json r = b
        end).
    { intros Hrest. destruct (IH _ _ Hrest)
        as (k & sleeps & Hk & Hnet & Hsl & Hall & Hrng & Hcsv & Hres).
      exists (S k), (wait_time backoff i (jitter_in env w) :: sleeps).
      split; [lia|]. split; [by rewrite Hnet; simpl; rewrite <- app_assoc|].
      split; [by rewrite Hsl; simpl; rewrite <- app_assoc|].
      split; [constructor; [apply pymax_ge_1|done]|].
      split; [rewrite Hrng; simpl; lia|]. split; [by rewrite Hcsv|].
      destruct res as [e'|b].
      - destruct Hres as (-> & -> & ?). simpl. repeat split; lia.
      - destruct Hres as (Hlt & r & Hr & H200 & Hb). split; [simpl; lia|].
        exists r. split; [|done]. rewrite <- Hr. f_equal.
        simpl. rewrite length_app. simpl. lia. }
    assert (Hpass :
      for_range n (S i) (safe_request_attempt env url params backoff) (raise e)
        (after_request rq w) = (res, w') ->
      exists (k : nat) (sleeps : list Q),
        (k <= S n)%nat /\
        net_log w' = net_log w ++ replicate k rq /\
        sleep_log w' = sleep_log w ++ sleeps /\
        Forall (fun s => (1 <= s)%Q) sleeps /\
        rng_calls w' = (rng_calls w + length sleeps)%nat /\
        meta_csv w' = meta_csv w /\
        match res with
        | inl e' => e' = e /\ k = S n /\ (length sleeps <= k)%nat
        | inr b =>
            (length sleeps < k)%nat /\
            exists r, server env (length (net_log w) + k - 1)%nat rq = inr r
                      /\ status_code r = 200 /\ json r = b
        end).
    { intros Hrest. destruct (IH _ _ Hrest)
        as (k & sleeps & Hk & Hnet & Hsl & Hall & Hrng & Hcsv & Hres).
      exists (S k), sleeps.
      split; [lia|]. split; [by rewrite Hnet; simpl; rewrite <- app_assoc|].
      split; [by rewrite Hsl|]. split; [done|].
      split; [by rewrite Hrng|]. split; [by rewrite Hcsv|].
      destruct res as [e'|b].
      - destruct Hres as (-> & -> & ?). repeat split; lia.
      - destruct Hres as (Hlt & r & Hr & H200 & Hb). split; [lia|].
        exists r. split; [|done]. rewrite <- Hr. f_equal.
        simpl. rewrite length_app. simpl. lia. }
    destruct (server env (length (net_log w)) rq) as [ex|r] eqn:Hsrv.
    + by apply Hwait.
    + destruct (status_code r =? 200)%Z eqn:H200.
      * injection Hrun as <- <-. exists 1%nat, []. simpl. rewrite !app_nil_r.
        repeat split; try done; try lia.
        exists r. split; [|split; [by apply Z.eqb_eq|done]].
        rewrite <- Hsrv. f_equal. lia.
      * destruct (transient_status (status_code r) || error_status (status_code r));
          [by apply Hwait | by apply Hpass].
Qed.

(** ** The retrying fetcher: the whole call *)


Lemma net_log_after_request (rq : request) (w : world) :
  length (net_log (after_request rq w)) = S (length (net_log w)).
Proof. simpl. rewrite length_app. simpl. lia. Qed.









(** X4.  In every environment a call of [safe_request] sends at most
    [max_retries] requests, all of them the same request; it sleeps at most
    once per request, never for less than a second; it draws one random
    number per sleep; and it leaves the snapshot alone. *)
Theorem safe_request_effects_bounded (env : environment) (url : string)
    (params : list (string * string)) (max_retries : Z) (backoff : Q) (w : world) :
  exists (k : nat) (sleeps : list Q),
    let w' := (safe_request env url params max_retries backoff w).2 in
    (k <= Z.to_nat max_retries)%nat /\
    net_log w' = net_log w ++ replicate k (request_of url params) /\
    sleep_log w' = sleep_log w ++ sleeps /\
    (length sleeps <= k)%nat /\
    Forall (fun s => (1 <= s)%Q) sleeps /\
    rng_calls w' = (rng_calls w + length sleeps)%nat /\
    meta_csv w' = meta_csv w.
Proof.
  unfold safe_request.
  destruct (for_range _ _ _ _ w) as [res w'] eqn:Hrun.
  destruct (safe_request_loop_spec _ _ _ _ _ _ _ _ _ _ Hrun)
    as (k & sleeps & Hk & Hnet & Hsl & Hall & Hrng & Hcsv & Hres).
  exists k, sleeps. simpl. repeat split; try done.
  destruct res; [by destruct Hres as (_ & _ & ?)|]. destruct Hres as [? _]. lia.
Qed.

(** X5.  A value returned by [safe_request] is the body of a response with
    status 200, the response to the last request sent. *)
Theorem safe_request_returns_a_200_body (env : environment) (url : string)
    (params : list (string * string)) (max_retries : Z) (backoff : Q)
    (w w' : world) (b : payload) :
  safe_request env url params max_retries backoff w = (inr b, w') ->
  exists r : http_response,
    server env (length (net_log w') - 1)%nat (request_of url params) = inr r /\
    status_code r = 200 /\ json r = b /\
    (length (net_log w) < length (net_log w'))%nat.
Proof.
  unfold safe_request. intros Hrun.
  destruct (safe_request_loop_spec _ _ _ _ _ _ _ _ _ _ Hrun)
    as (k & sleeps & _ & Hnet & _ & _ & _ & _ & Hlt & r & Hr & H200 & Hb).
  exists r. rewrite Hnet, length_app, length_replicate.
  split; [rewrite <- Hr; f_equal; lia|]. repeat split; try done. lia.
Qed.

Lemma safe_request_returns_a_200_body_witness :
  let env := mkEnv (fun n _ => if (n <? 2)%nat then inr (mkResponse 502 JsonNull)
                               else inr (mkResponse 200 (JsonObject None ["error"])))
                   (fun _ => (1 # 3)%Q) in
  let w := mkWorld [] [] 0 None in
  exists (b : payload) (w' : world) (r : http_response),
    safe_request env "u" [] 8 2 w = (inr b, w') /\
    server env (length (net_log w') - 1)%nat (request_of "u" []) = inr r /\
    status_code r = 200 /\ json r = b /\
    (length (net_log w) < length (net_log w'))%nat.
Proof.
  intros env w.
  destruct (safe_request env "u" [] 8 2 w) as [[e|b] w'] eqn:Hrun.
  - vm_compute in Hrun. discriminate.
  - destruct (safe_request_returns_a_200_body env "u" [] 8 2 w w' b Hrun) as [r Hr].
    by exists b, w', r.
Defined.

Lemma for_range_passed_over (env : environment) (url : string)
    (params : list (string * string)) (backoff : Q) (e : exn) (n i : nat) (w : world) :
  (forall j, (j < n)%nat ->
     passed_over (server env (length (net_log w) + j)%nat (request_of url params)) = true) ->
  for_range n i (safe_request_attempt env url params backoff) (raise e) w
  = (inl e, mkWorld (net_log w ++ replicate n (request_of url params))
                    (sleep_log w) (rng_calls w) (meta_csv w)).
Proof.
  set (rq := request_of url params).
  revert i w. induction n as [|n IH]; intros i w Hpass.
  - simpl. rewrite app_nil_r. by destruct w.
  - rewrite for_range_S.
    rewrite safe_request_attempt_passed_over
      by (fold rq; rewrite <- (Nat.add_0_r (length (net_log w))); apply Hpass; lia).
    fold rq. rewrite IH.
    + simpl. by rewrite <- app_assoc.
    + intros j Hj. rewrite net_log_after_request.
      replace (S (length (net_log w)) + j)%nat with (length (net_log w) + S j)%nat by lia.
      apply Hpass. lia.
Qed.

(** X6.  A status other than 200 for which [raise_for_status] raises
    nothing (below 400, or 600 and above) is neither returned nor waited
    on: when every request of the budget is answered that way,
    [safe_request] sends all its requests back to back, without a single
    sleep, and raises the [RuntimeError] of the exhausted budget. *)
Theorem safe_request_passes_over_without_sleep (env : environment) (url : string)
    (params : list (string * string)) (max_retries : Z) (backoff : Q) (w : world) :
  (forall j, (j < Z.to_nat max_retries)%nat ->
     passed_over (server env (length (net_log w) + j)%nat (request_of url params)) = true) ->
  safe_request env url params max_retries backoff w
  = (inl (RuntimeError (exhausted_message url max_retries)),
     mkWorld (net_log w ++ replicate (Z.to_nat max_retries) (request_of url params))
             (sleep_log w) (rng_calls w) (meta_csv w)).
Proof. intros. unfold safe_request. by apply for_range_passed_over. Qed.

Lemma safe_request_passes_over_without_sleep_witness :
  let env := mkEnv (fun _ _ => inr (mkResponse 204 JsonNull)) (fun _ => (1 # 3)%Q) in
  let w := mkWorld [] [] 0 None in
  safe_request env "u" [] 8 2 w
  = (inl (RuntimeError (exhausted_message "u" 8)),
     mkWorld (net_log w ++ replicate (Z.to_nat 8) (request_of "u" []))
             (sleep_log w) (rng_calls w) (meta_csv w)).
Proof.
  intros env w. apply (safe_request_passes_over_without_sleep env "u" [] 8 2 w).
  intros j Hj. reflexivity.
Defined.
(** ** The market-chart loader *)

Lemma insert_sorted_below {A : Type} (leb : A -> A -> bool) (x : A) (l : list A) :
  Forall (fun y => leb x y = true) l -> insert_sorted leb x l = x :: l.
Proof. intros [|y l' Hy _]; simpl; [done|]. by rewrite Hy. Qed.

Lemma sort_values_of_sorted {A : Type} (leb : A -> A -> bool) (l : list A) :
  StronglySorted (fun a b => leb a b = true) l -> sort_values leb l = l.
Proof.
  induction 1 as [|x l Hl IH Hx]; simpl; [done|].
  fold (sort_values leb l). rewrite IH. by apply insert_sorted_below.
Qed.

Lemma drop_duplicates_first_of_NoDup {A K : Type} `{EqDecision K}
    (key : A -> K) (seen : list K) (l : list A) :
  NoDup (key <$> l) -> (forall x, x ∈ l -> key x ∉ seen) ->
  drop_duplicates_first key seen l = l.
Proof.
  revert seen. induction l as [|x l IH]; intros seen Hnd Hseen; simpl; [done|].
  csimpl in Hnd. apply NoDup_cons in Hnd as [Hx Hnd].
  rewrite decide_False by (apply Hseen; apply list_elem_of_here).
  f_equal. apply IH; [done|].
  intros y Hy. apply not_elem_of_cons. split.
  - intros Heq. apply Hx. rewrite <- Heq. by apply list_elem_of_fmap_2.
  - apply Hseen. by apply list_elem_of_further.
Qed.

Lemma chart_rows_dates (coin vs : string) (prices : list (Z * pyfloat)) :
  row_date <$> chart_rows coin vs prices = (fun p => to_date p.1) <$> prices.
Proof. unfold chart_rows. rewrite <- list_fmap_compose. by apply list_fmap_ext. Qed.

(** X7.  For a response with at most one point per calendar day, in
    ascending order of time, the loader changes nothing: the frame holds one
    row per point, in the order of the response, with the day of the point
    and its price. *)
Theorem chart_frame_of_daily_points (coin vs : string) (prices : list (Z * pyfloat)) :
  StronglySorted (fun p q => to_date p.1 < to_date q.1) prices ->
  chart_frame coin vs prices
  = (fun p => mkPriceRow (to_date p.1) coin vs p.2) <$> prices.
Proof.
  intros Hs. fold (chart_rows coin vs prices).
  unfold chart_frame, drop_duplicates. cbv zeta.
  assert (Hrows : StronglySorted (fun a b => row_date a < row_date b)
                    (chart_rows coin vs prices)).
  { unfold chart_rows. induction Hs as [|p l Hl IH Hp]; csimpl; constructor; [done|].
    apply Forall_fmap. eapply Forall_impl; [exact Hp|]. done. }
  rewrite sort_values_of_sorted.
  - apply drop_duplicates_first_of_NoDup; [|intros; apply not_elem_of_nil].
    clear Hs. induction Hrows as [|x l Hl IH Hx]; csimpl; constructor; [|done].
    intros (y & Hk & Hy)%list_elem_of_fmap.
    rewrite Forall_forall in Hx. specialize (Hx y Hy).
    unfold chart_key in Hk. injection Hk as _ Hd. lia.
  - pose proof (chart_rows_coin coin vs prices) as Hcoin.
    induction Hrows as [|x l Hl IH Hx]; constructor.
    + apply IH. by apply Forall_cons in Hcoin as [_ ?].
    + apply Forall_cons in Hcoin as [[Hcx _] Hcoin].
      rewrite Forall_forall in Hx, Hcoin. apply Forall_forall. intros y Hy.
      rewrite chart_key_leb_same_coin by (destruct (Hcoin y Hy); congruence).
      apply Z.leb_le. specialize (Hx y Hy). simpl in Hx. lia.
Qed.

Lemma chart_frame_of_daily_points_witness :
  chart_frame "btc" "usd" [(0, Fin 1); (86400000, Fin 2); (259200000, Fin 3)]
  = (fun p => mkPriceRow (to_date p.1) "btc" "usd" p.2)
      <$> [(0, Fin 1); (86400000, Fin 2); (259200000, Fin 3)].
Proof.
  apply (chart_frame_of_daily_points "btc" "usd").
  repeat constructor; vm_compute; reflexivity.
Defined.

Lemma length_insert_sorted {A : Type} (leb : A -> A -> bool) (x : A) (l : list A) :
  length (insert_sorted leb x l) = S (length l).
Proof.
  induction l as [|y l IH]; simpl; [done|]. destruct (leb x y); simpl; by rewrite ?IH.
Qed.

Lemma length_sort_values {A : Type} (leb : A -> A -> bool) (l : list A) :
  length (sort_values leb l) = length l.
Proof.
  induction l as [|x l IH]; simpl; [done|].
  fold (sort_values leb l). by rewrite length_insert_sorted, IH.
Qed.

Lemma length_drop_duplicates_first {A K : Type} `{EqDecision K}
    (key : A -> K) (seen : list K) (l : list A) :
  (length (drop_duplicates_first key seen l) <= length l)%nat.
Proof.
  revert seen. induction l as [|x l IH]; intros seen; simpl; [done|].
  case_decide; simpl; [specialize (IH seen)|specialize (IH (key x :: seen))]; lia.
Qed.

(** Deduplication loses no key. *)
Lemma drop_duplicates_first_keeps_keys {A K : Type} `{EqDecision K}
    (key : A -> K) (seen : list K) (l : list A) (x : A) :
  x ∈ l -> key x ∉ seen ->
  exists y, y ∈ drop_duplicates_first key seen l /\ key y = key x.
Proof.
  intros Hx Hseen.
  pose proof (filter_drop_duplicates_first key (key x) seen l) as Hf.
  rewrite decide_False in Hf by done.
  assert (Hin : x ∈ filter (fun a => key a = key x) l) by by apply list_elem_of_filter.
  destruct (filter (fun a => key a = key x) l) as [|y t] eqn:E;
    [by apply elem_of_nil in Hin|].
  exists y. simpl in Hf.
  assert (Hy : y ∈ filter (fun a => key a = key x) (drop_duplicates_first key seen l))
    by (rewrite Hf; apply list_elem_of_here).
  apply list_elem_of_filter in Hy as [Hk Hy]. by split.
Qed.

Lemma to_date_bounds (ts : Z) :
  to_date ts * 86400000 <= ts < (to_date ts + 1) * 86400000.
Proof.
  unfold to_date.
  pose proof (Z.div_mod ts 86400000 ltac:(lia)).
  pose proof (Z.mod_pos_bound ts 86400000 ltac:(lia)). lia.
Qed.

Lemma chart_frame_keeps_days (coin vs : string) (prices : list (Z * pyfloat))
    (ts : Z) (p : pyfloat) :
  (ts, p) ∈ prices -> to_date ts ∈ row_date <$> chart_frame coin vs prices.
Proof.
  intros Hp. unfold chart_frame, drop_duplicates. cbv zeta.
  destruct (drop_duplicates_first_keeps_keys chart_key []
              (sort_values chart_key_leb (chart_rows coin vs prices))
              (mkPriceRow (to_date ts) coin vs p)) as (y & Hy & Hk).
  - apply elem_of_sort_values. unfold chart_rows.
    apply list_elem_of_fmap. by exists (ts, p).
  - apply not_elem_of_nil.
  - apply list_elem_of_fmap. exists y. split; [|done].
    unfold chart_key in Hk. simpl in Hk. by injection Hk as _ ->.
Qed.

Lemma chart_frame_nil_iff (coin vs : string) (prices : list (Z * pyfloat)) :
  chart_frame coin vs prices = [] <-> prices = [].
Proof.
  split; [|by intros ->].
  intros Hnil. destruct prices as [|[ts p] prices]; [done|]. exfalso.
  pose proof (chart_frame_keeps_days coin vs ((ts, p) :: prices) ts p
                (list_elem_of_here _ _)) as Hdays.
  rewrite Hnil in Hdays. by apply elem_of_nil in Hdays.
Qed.

(** X8.  Every row of the frame of the loader comes from a point of the
    response: it carries the price of a point whose timestamp lies in the
    day of the row (the timestamp is floored to the day, also before the
    epoch), and the asset and currency asked for.  No day of the response is
    lost, and the frame never has more rows than the response has points. *)
Theorem chart_frame_rows_come_from_points (coin vs : string)
    (prices : list (Z * pyfloat)) :
  let out := chart_frame coin vs prices in
  (forall r, r ∈ out ->
     row_coin_id r = coin /\ row_vs_currency r = vs /\
     exists ts, (ts, row_price r) ∈ prices /\
                row_date r * 86400000 <= ts < (row_date r + 1) * 86400000) /\
  (forall ts p, (ts, p) ∈ prices -> to_date ts ∈ row_date <$> out) /\
  (length out <= length prices)%nat.
Proof.
  unfold chart_frame, drop_duplicates. cbv zeta. split; [|split].
  - intros r [Hr _]%elem_of_drop_duplicates_first.
    apply elem_of_sort_values in Hr. unfold chart_rows in Hr.
    apply list_elem_of_fmap in Hr as ([ts p] & -> & Hp). simpl.
    repeat split. exists ts. split; [done|]. apply to_date_bounds.
  - intros ts p Hp. by apply (chart_frame_keeps_days coin vs prices ts p).
  - etransitivity; [apply length_drop_duplicates_first|].
    unfold chart_rows. by rewrite length_sort_values, length_fmap.
Qed.


(** X9.  When [fetch_market_chart] returns, the fetcher returned a JSON
    object; the frame is built from the points under ["prices"] (none when
    the key is absent), and it is empty exactly when there are no points:
    an empty series is a result, not an error. *)
Theorem fetch_market_chart_returns (env : environment) (coin vs days : string)
    (w w' : world) (rows : list PriceRow) :
  fetch_market_chart env coin vs days w = (inr rows, w') ->
  exists (points : option (list (Z * pyfloat))) (keys : list string),
    safe_request_default env
      (COINGECKO_BASE +:+ "/coins/" +:+ coin +:+ "/market_chart")
      [("vs_currency", vs); ("days", days); ("interval", "daily")] w
    = (inr (JsonObject points keys), w') /\
    rows = chart_frame coin vs (default [] points) /\
    (rows = [] <-> default [] points = []).
Proof.
  unfold fetch_market_chart. cbv zeta. unfold bind at 1.
  destruct (safe_request_default env _ _ w) as [[e|data] w1]; [done|].
  unfold bind, data_get_prices.
  destruct data as [[points|] keys|rows'|]; simpl; try done.
  - case_bool_decide as Hp.
    + intros [= <- <-]. exists (Some points), keys. subst points. by simpl.
    + intros [= <- <-]. exists (Some points), keys. simpl.
      split; [done|]. split; [done|]. apply chart_frame_nil_iff.
  - intros [= <- <-]. by exists None, keys.
Qed.

Lemma fetch_market_chart_returns_witness :
  let env := mkEnv (fun _ _ => inr (mkResponse 200
                      (JsonObject (Some [(5, Fin 2); (86400007, Fin 3)]) ["total_volumes"])))
                   (fun _ => (1 # 3)%Q) in
  let w := mkWorld [] [] 0 None in
  exists (w' : world) (rows : list PriceRow)
         (points : option (list (Z * pyfloat))) (keys : list string),
    fetch_market_chart env "btc" "usd" "365" w = (inr rows, w') /\
    rows = chart_frame "btc" "usd" (default [] points) /\
    (rows = [] <-> default [] points = []).
Proof.
  intros env w.
  destruct (fetch_market_chart env "btc" "usd" "365" w) as [[e|rows] w'] eqn:Hrun.
  - vm_compute in Hrun. discriminate.
  - destruct (fetch_market_chart_returns env "btc" "usd" "365" w w' rows Hrun)
      as (points & keys & _ & Hrows & Hnil).
    by exists w', rows, points, keys.
Defined.



(** ** The metrics engine never looks ahead *)

Lemma shift1_causal : causal shift1.
Proof.
  intros n s. destruct s as [|x s]; [by destruct n|].
  destruct n as [|n]; [done|]. unfold shift1. cbn [take].
  f_equal. rewrite !take_take. cbn [length]. rewrite length_take.
  replace (S (n `min` length s) - 1)%nat with (n `min` length s)%nat by lia.
  replace (n `min` (S (length s) - 1))%nat with (n `min` length s)%nat by lia.
  destruct (n `min` length s)%nat as [|m] eqn:E; [done|]. simpl.
  rewrite take_take. do 2 f_equal. lia.
Qed.

Lemma accumulate_from_take op acc (n : nat) (s : series) :
  accumulate_from op acc (take n s) = take n (accumulate_from op acc s).
Proof.
  revert acc n. induction s as [|x s IH]; intros acc [|n]; simpl; try done.
  by rewrite IH.
Qed.

Lemma na_accum_func_causal op neutral : causal (na_accum_func op neutral).
Proof.
  intros n s. unfold na_accum_func. cbv zeta.
  rewrite zip_with_take. f_equal. rewrite fmap_take.
  generalize ((fun x => if isnan x then neutral else x) <$> s). intros v.
  destruct v as [|x v]; [by destruct n|]. destruct n as [|n]; [done|].
  simpl. by rewrite accumulate_from_take.
Qed.

Lemma rolling_mean_lookup (window min_periods : nat) (s : series) (i : nat) :
  rolling_mean window min_periods s !! i
  = if decide (i < length s)%nat
    then Some (window_mean min_periods (drop (S i - window) (take (S i) s)))
    else None.
Proof.
  unfold rolling_mean, window_at. rewrite list_lookup_fmap. case_decide.
  - by rewrite lookup_seq_lt.
  - by rewrite lookup_seq_ge by lia.
Qed.

Lemma rolling_mean_causal (window min_periods : nat) :
  causal (rolling_mean window min_periods).
Proof.
  intros n s. apply list_eq. intros i.
  rewrite rolling_mean_lookup, length_take.
  destruct (decide (i < n)%nat) as [Hi|Hi].
  - rewrite lookup_take_lt by done. rewrite rolling_mean_lookup.
    repeat case_decide; try lia; try done.
    rewrite take_take. by replace (S i `min` n)%nat with (S i) by lia.
  - rewrite lookup_take_ge by lia. case_decide; [lia|done].
Qed.

Lemma length_rolling_mean (window min_periods : nat) (s : series) :
  length (rolling_mean window min_periods s) = length s.
Proof. unfold rolling_mean. by rewrite length_fmap, length_seq. Qed.

Lemma fmap_causal (g : pyfloat -> pyfloat) : causal (fmap g).
Proof. intros n s. by rewrite fmap_take. Qed.

Lemma causal_compose (f g : series -> series) :
  causal f -> causal g -> causal (fun s => f (g s)).
Proof. intros Hf Hg n s. by rewrite Hg, Hf. Qed.

Lemma cum_return_transform_causal :
  causal (fun s => series_sub_scalar (cumprod (scalar_add_series (Fin 1) s)) (Fin 1)).
Proof.
  apply (causal_compose (fun s => series_sub_scalar s (Fin 1))
           (fun s => cumprod (scalar_add_series (Fin 1) s))).
  - apply fmap_causal.
  - apply (causal_compose cumprod (scalar_add_series (Fin 1))).
    + apply na_accum_func_causal.
    + apply fmap_causal.
Qed.

Lemma series_of_take {A : Type} (k : string) (n : nat) (ks : list string) (vs : list A) :
  length ks = length vs ->
  series_of k (take n ks) (take n vs)
  = take (length (filter (fun k' => k' = k) (take n ks))) (series_of k ks vs).
Proof.
  revert n vs. induction ks as [|k' ks IH]; intros n [|v vs] Hlen; simpl in *; try done.
  - by rewrite !take_nil.
  - destruct n as [|n]; [done|]. simpl. rewrite filter_cons.
    case_decide; simpl; rewrite IH by lia; done.
Qed.

Lemma scatter_take (res : string -> series) (n : nat) (ks : list string) :
  scatter res (take n ks) = take n (scatter res ks).
Proof.
  revert res n. induction ks as [|k ks IH]; intros res [|n]; simpl; try done.
  by rewrite IH.
Qed.

Lemma scatter_ext (res res' : string -> series) (ks : list string) :
  (forall k, take (length (filter (fun k' => k' = k) ks)) (res k)
             = take (length (filter (fun k' => k' = k) ks)) (res' k)) ->
  scatter res ks = scatter res' ks.
Proof.
  revert res res'. induction ks as [|k ks IH]; intros res res' H; simpl; [done|].
  f_equal.
  - specialize (H k). rewrite filter_cons, decide_True in H by done. simpl in H.
    destruct (res k), (res' k); simpl in *; congruence.
  - apply IH. intros k0. specialize (H k0). rewrite filter_cons in H.
    case_decide as Hk.
    + subst k0. rewrite decide_True by done. simpl in H.
      destruct (res k), (res' k); simpl in *; try congruence;
        rewrite ?decide_True by done; [done|congruence].
    + cbv beta. by rewrite !decide_False by done.
Qed.

(** A grouped transform with a causal function does not look ahead in the
    table either. *)
Lemma group_transform_take (f : series -> series) (n : nat)
    (ks : list string) (vs : series) :
  length ks = length vs -> causal f ->
  group_transform f (take n ks) (take n vs) = take n (group_transform f ks vs).
Proof.
  intros Hlen Hf. unfold group_transform. rewrite <- scatter_take.
  apply scatter_ext. intros k. rewrite series_of_take by done.
  by rewrite Hf, take_take, Nat.min_id.
Qed.

Section Truncation.
Context (n : nat) (ks : list string) (ps : series) (Hlen : length ks = length ps).

Lemma price_lag_col_take :
  price_lag_col (take n ks) (take n ps) = take n (price_lag_col ks ps).
Proof. apply group_transform_take; [done|apply shift1_causal]. Qed.

Lemma raw_daily_return_col_take :
  raw_daily_return_col (take n ks) (take n ps) = take n (raw_daily_return_col ks ps).
Proof.
  unfold raw_daily_return_col, series_sub_scalar, series_div.
  by rewrite price_lag_col_take, <- zip_with_take, fmap_take.
Qed.

Lemma raw_pct_change_col_take :
  raw_pct_change_col (take n ks) (take n ps) = take n (raw_pct_change_col ks ps).
Proof.
  unfold raw_pct_change_col, series_mul_scalar.
  by rewrite raw_daily_return_col_take, fmap_take.
Qed.

Lemma daily_return_col_take :
  daily_return_col (take n ks) (take n ps) = take n (daily_return_col ks ps).
Proof.
  unfold daily_return_col, fillna. by rewrite raw_daily_return_col_take, fmap_take.
Qed.

Lemma pct_change_col_take :
  pct_change_col (take n ks) (take n ps) = take n (pct_change_col ks ps).
Proof.
  unfold pct_change_col, fillna. by rewrite raw_pct_change_col_take, fmap_take.
Qed.

Lemma ma_col_take (window : nat) :
  ma_col window (take n ks) (take n ps) = take n (ma_col window ks ps).
Proof. apply group_transform_take; [done|apply rolling_mean_causal]. Qed.

Lemma cum_return_col_take :
  cum_return_col (take n ks) (take n ps) = take n (cum_return_col ks ps).
Proof.
  unfold cum_return_col. rewrite raw_daily_return_col_take.
  apply group_transform_take; [|apply cum_return_transform_causal].
  by rewrite length_raw_daily_return.
Qed.

Lemma rolling_max_price_col_take :
  rolling_max_price_col (take n ks) (take n ps) = take n (rolling_max_price_col ks ps).
Proof. apply group_transform_take; [done|apply na_accum_func_causal]. Qed.

Lemma drawdown_col_take : drawdown_col (take n ps) = take n (drawdown_col ps).
Proof.
  unfold drawdown_col, drawdown, series_div, series_sub, cummax. cbv zeta.
  by rewrite (na_accum_func_causal fmax (Inf true) n ps), <- !zip_with_take.
Qed.
End Truncation.

Lemma to_frame_columns (rows : list PriceRow) :
  to_frame rows !! "coin_id" = Some (StrCol (row_coin_id <$> rows))
  /\ to_frame rows !! "price" = Some (NumCol (row_price <$> rows)).
Proof. by split. Qed.

Lemma metrics_of_to_frame (rows : list PriceRow) :
  metrics_of (to_frame rows)
  = Some (metrics_frame (row_coin_id <$> rows) (row_price <$> rows) (to_frame rows)).
Proof. by apply metrics_of_frame. Qed.

(** X11.  [compute_metrics] never looks ahead.  For every price table and
    every [n], the metrics of the first [n] rows are the first [n] rows of
    the metrics of the whole table, in every column: what a row gets does
    not depend on the rows after it (so a moving average, a running maximum
    or a return is never changed by a later observation). *)
Theorem compute_metrics_never_looks_ahead (rows : list PriceRow) (n : nat) :
  exists out : DataFrame,
    metrics_of (to_frame rows) = Some out /\
    metrics_of (to_frame (take n rows)) = Some (column_take n <$> out).
Proof.
  eexists. split; [apply metrics_of_to_frame|].
  rewrite metrics_of_to_frame. f_equal.
  set (ks := row_coin_id <$> rows). set (ps := row_price <$> rows).
  assert (Hlen : length ks = length ps) by (unfold ks, ps; by rewrite !length_fmap).
  unfold metrics_frame, to_frame.
  rewrite fmap_delete, !fmap_insert, fmap_empty. cbn [column_take].
  rewrite !fmap_take. fold ks ps.
  rewrite <- (price_lag_col_take n ks ps Hlen), <- (raw_daily_return_col_take n ks ps Hlen),
    <- (raw_pct_change_col_take n ks ps Hlen), <- (daily_return_col_take n ks ps Hlen),
    <- (pct_change_col_take n ks ps Hlen), <- !(ma_col_take n ks ps Hlen),
    <- (cum_return_col_take n ks ps Hlen), <- (rolling_max_price_col_take n ks ps Hlen),
    <- (drawdown_col_take n ps).
  reflexivity.
Qed.

(** ** Moving averages *)

Lemma metrics_frame_ma_7 ks ps (df : DataFrame) :
  metrics_frame ks ps df !! "ma_7" = Some (NumCol (ma_col 7 ks ps)).
Proof. unfold metrics_frame. by simplify_map_eq. Qed.

Lemma metrics_frame_ma_30 ks ps (df : DataFrame) :
  metrics_frame ks ps df !! "ma_30" = Some (NumCol (ma_col 30 ks ps)).
Proof. unfold metrics_frame. by simplify_map_eq. Qed.


Lemma series_of_ma_col (window : nat) (ks : list string) (ps : series) (k : string) :
  length ks = length ps ->
  series_of k ks (ma_col window ks ps) = rolling_mean window 1 (series_of k ks ps).
Proof.
  intros Hlen. unfold ma_col. apply series_of_group_transform; [done|].
  intros s. apply length_rolling_mean.
Qed.




(** ** Cumulative return after the first observation *)










Lemma series_of_cum_return (ks : list string) (ps : series) (k : string) :
  length ks = length ps ->
  series_of k ks (cum_return_col ks ps)
  = series_sub_scalar
      (cumprod (scalar_add_series (Fin 1)
         (series_sub_scalar
            (series_div (series_of k ks ps) (shift1 (series_of k ks ps))) (Fin 1))))
      (Fin 1).
Proof.
  intros Hlen. unfold cum_return_col.
  rewrite series_of_group_transform.
  - by rewrite series_of_raw_daily_return.
  - by rewrite length_raw_daily_return.
  - intros s. unfold series_sub_scalar, scalar_add_series.
    by rewrite length_fmap, length_cumprod, length_fmap.
Qed.



(** ** Drawdown as the code computes it *)





Lemma series_of_single {A : Type} (k : string) (ks : list string) (vs : list A) :
  Forall (fun k' => k' = k) ks -> length ks = length vs -> series_of k ks vs = vs.
Proof.
  intros Hks. revert vs.
  induction Hks as [|k' ks -> _ IH]; intros [|v vs] Hlen; simpl in *; try done.
  rewrite decide_True by done. f_equal. apply IH. lia.
Qed.

Lemma group_transform_single (f : series -> series) (k : string)
    (ks : list string) (vs : series) :
  Forall (fun k' => k' = k) ks -> length ks = length vs ->
  (forall s, length (f s) = length s) ->
  group_transform f ks vs = f vs.
Proof.
  intros Hks Hlen Hf.
  rewrite <- (series_of_single k ks (group_transform f ks vs) Hks)
    by (by rewrite length_group_transform).
  rewrite series_of_group_transform by done. by rewrite series_of_single.
Qed.

(** X15.  On a table that holds one asset only, the drawdown is the
    drawdown of that asset (compare C1): [rolling_max_price] is the running maximum of the price column and
    [drawdown] is [(price - rolling_max_price) / rolling_max_price] on every
    row. *)
Theorem drawdown_of_a_single_asset (df : DataFrame) (ks : list string) (ps : series)
    (k : string) :
  df !! "coin_id" = Some (StrCol ks) ->
  df !! "price" = Some (NumCol ps) ->
  length ks = length ps ->
  Forall (fun k' => k' = k) ks ->
  exists (out : DataFrame) (rm dd : series),
    metrics_of df = Some out /\
    out !! "rolling_max_price" = Some (NumCol rm) /\
    out !! "drawdown" = Some (NumCol dd) /\
    rm = cummax ps /\
    dd = series_div (series_sub ps rm) rm.
Proof.
  intros Hk Hp Hlen Hks.
  exists (metrics_frame ks ps df), (rolling_max_price_col ks ps), (drawdown_col ps).
  split; [by apply metrics_of_frame|].
  split; [apply metrics_frame_rolling_max_price|].
  split; [apply metrics_frame_drawdown|].
  unfold rolling_max_price_col.
  rewrite (group_transform_single cummax k ks ps Hks Hlen length_cummax).
  by split.
Qed.

Lemma drawdown_of_a_single_asset_witness :
  let rows := [mkPriceRow 0 "x" "usd" (Fin 10); mkPriceRow 1 "x" "usd" (Fin 20);
               mkPriceRow 2 "x" "usd" (Fin 10)] in
  exists (out : DataFrame) (rm dd : series),
    metrics_of (to_frame rows) = Some out /\
    out !! "rolling_max_price" = Some (NumCol rm) /\
    out !! "drawdown" = Some (NumCol dd) /\
    rm = cummax [Fin 10; Fin 20; Fin 10] /\
    dd = series_div (series_sub [Fin 10; Fin 20; Fin 10] rm) rm.
Proof.
  intros rows.
  apply (drawdown_of_a_single_asset (to_frame rows) ["x"; "x"; "x"]
           [Fin 10; Fin 20; Fin 10] "x"); try reflexivity.
  by repeat constructor.
Defined.

(** ** The frame that [compute_metrics] returns, and when it raises *)

(** X16.  On a frame without a [coin_id] column, or with one but without a
    [price] column, [compute_metrics] raises the [KeyError] of the missing
    column at its first statement after the copy: the given frame is
    untouched and the heap holds one more frame, the unchanged copy. *)
Theorem compute_metrics_missing_column (h : heap) (l : loc) (df : DataFrame) :
  h !! l = Some df ->
  df !! "coin_id" = None \/ (is_Some (df !! "coin_id") /\ df !! "price" = None) ->
  exists c : string,
    compute_metrics l h = (inl (KeyError c), h ++ [df]) /\
    df !! c = None /\ (c = "coin_id" \/ c = "price").
Proof.
  intros Hl Hmiss. unfold compute_metrics.
  unfold bind at 1. rewrite (frame_copy_run _ _ _ Hl). cbv beta iota.
  unfold bind at 1. unfold groupby_select, getnum, getitem, deref.
  unfold bind. rewrite !lookup_last.
  destruct Hmiss as [Hk|[[col Hk] Hp]].
  - exists "coin_id". rewrite Hk. unfold raise. cbv beta iota. eauto.
  - exists "price". rewrite Hk. unfold ret, raise. cbv beta iota.
    rewrite lookup_last. cbv beta iota. rewrite Hp. cbv beta iota. eauto.
Qed.

Lemma compute_metrics_missing_column_witness :
  let df : DataFrame := <["coin_id" := StrCol ["x"]]> ∅ in
  exists c : string,
    compute_metrics 0%nat [df] = (inl (KeyError c), [df] ++ [df]) /\
    df !! c = None /\ (c = "coin_id" \/ c = "price").
Proof.
  intros df. apply (compute_metrics_missing_column [df] 0%nat df eq_refl).
  right. split; [by eexists|reflexivity].
Defined.

Lemma metrics_frame_price_lag ks ps (df : DataFrame) :
  metrics_frame ks ps df !! "price_lag" = None.
Proof. unfold metrics_frame. apply lookup_delete_eq. Qed.

Lemma derived_column_cases (c : string) :
  c ∈ derived_columns ->
  c = "price_lag" \/ c = "daily_return" \/ c = "pct_change" \/ c = "ma_7"
  \/ c = "ma_30" \/ c = "cum_return" \/ c = "rolling_max_price" \/ c = "drawdown".
Proof.
  unfold derived_columns. rewrite !elem_of_cons, elem_of_nil. tauto.
Qed.

Lemma length_daily_return_col ks ps :
  length ks = length ps -> length (daily_return_col ks ps) = length ps.
Proof.
  intros. unfold daily_return_col, fillna. by rewrite length_fmap, length_raw_daily_return.
Qed.

Lemma length_pct_change_col ks ps :
  length ks = length ps -> length (pct_change_col ks ps) = length ps.
Proof.
  intros. unfold pct_change_col, raw_pct_change_col, fillna, series_mul_scalar.
  by rewrite !length_fmap, length_raw_daily_return.
Qed.

Lemma length_drawdown_col ps : length (drawdown_col ps) = length ps.
Proof.
  unfold drawdown_col, drawdown, series_div, series_sub. cbv zeta.
  rewrite !length_zip_with, length_cummax. lia.
Qed.

(** X17.  On a well-formed frame the result of [compute_metrics] has the
    seven columns [daily_return], [pct_change], [ma_7], [ma_30],
    [cum_return], [rolling_max_price] and [drawdown], each of numbers and
    with one cell per row of the table; the helper column [price_lag] is not
    in it, even when the input had a column of that name. *)
Theorem compute_metrics_output_columns (df : DataFrame) (ks : list string) (ps : series) :
  df !! "coin_id" = Some (StrCol ks) ->
  df !! "price" = Some (NumCol ps) ->
  length ks = length ps ->
  exists out : DataFrame,
    metrics_of df = Some out /\
    out !! "price_lag" = None /\
    forall c, c ∈ ["daily_return"; "pct_change"; "ma_7"; "ma_30"; "cum_return";
                   "rolling_max_price"; "drawdown"] ->
      exists s : series, out !! c = Some (NumCol s) /\ length s = length ps.
Proof.
  intros Hk Hp Hlen. exists (metrics_frame ks ps df).
  split; [by apply metrics_of_frame|]. split; [apply metrics_frame_price_lag|].
  intros c Hc. rewrite !elem_of_cons, elem_of_nil in Hc.
  destruct Hc as [->|[->|[->|[->|[->|[->|[->|[]]]]]]]]; eexists; (split;
    [first [apply metrics_frame_daily_return | apply metrics_frame_pct_change
           | apply metrics_frame_ma_7 | apply metrics_frame_ma_30
           | apply metrics_frame_cum_return | apply metrics_frame_rolling_max_price
           | apply metrics_frame_drawdown]|]).
  - by apply length_daily_return_col.
  - by apply length_pct_change_col.
  - unfold ma_col. by rewrite length_group_transform.
  - unfold ma_col. by rewrite length_group_transform.
  - unfold cum_return_col. by rewrite length_group_transform.
  - unfold rolling_max_price_col. by rewrite length_group_transform.
  - apply length_drawdown_col.
Qed.

Lemma compute_metrics_output_columns_witness :
  let df : DataFrame :=
    <["price_lag" := NumCol [Fin 7; Fin 7]]>
      (to_frame [mkPriceRow 0 "x" "usd" (Fin 10); mkPriceRow 1 "x" "usd" (Fin 20)]) in
  exists out : DataFrame,
    metrics_of df = Some out /\
    out !! "price_lag" = None /\
    forall c, c ∈ ["daily_return"; "pct_change"; "ma_7"; "ma_30"; "cum_return";
                   "rolling_max_price"; "drawdown"] ->
      exists s : series, out !! c = Some (NumCol s) /\ length s = 2%nat.
Proof.
  intros df.
  apply (compute_metrics_output_columns df ["x"; "x"] [Fin 10; Fin 20]); reflexivity.
Defined.

(** X18.  Running [compute_metrics] on its own result changes nothing: the
    derived columns are computed again from [coin_id] and [price] alone. *)
Theorem compute_metrics_idempotent (df : DataFrame) (ks : list string) (ps : series) :
  df !! "coin_id" = Some (StrCol ks) ->
  df !! "price" = Some (NumCol ps) ->
  exists out : DataFrame,
    metrics_of df = Some out /\ metrics_of out = Some out.
Proof.
  intros Hk Hp. exists (metrics_frame ks ps df).
  split; [by apply metrics_of_frame|].
  assert (Hnot : forall c, c = "coin_id" \/ c = "price" -> c ∉ derived_columns).
  { intros c [-> | ->] Hc; apply derived_column_cases in Hc;
      repeat (destruct Hc as [Hc|Hc]; [discriminate|]); discriminate. }
  rewrite (metrics_of_frame (metrics_frame ks ps df) ks ps)
    by (rewrite metrics_frame_other; [done|apply Hnot; tauto]).
  f_equal. apply map_eq. intros c.
  destruct (decide (c ∈ derived_columns)) as [Hc|Hc].
  - apply derived_column_cases in Hc.
    destruct Hc as [->|[->|[->|[->|[->|[->|[->| ->]]]]]]].
    + by rewrite !metrics_frame_price_lag.
    + by rewrite !metrics_frame_daily_return.
    + by rewrite !metrics_frame_pct_change.
    + by rewrite !metrics_frame_ma_7.
    + by rewrite !metrics_frame_ma_30.
    + by rewrite !metrics_frame_cum_return.
    + by rewrite !metrics_frame_rolling_max_price.
    + by rewrite !metrics_frame_drawdown.
  - by rewrite (metrics_frame_other ks ps (metrics_frame ks ps df)).
Qed.

Lemma compute_metrics_idempotent_witness :
  let df := to_frame [mkPriceRow 0 "x" "usd" (Fin 10); mkPriceRow 1 "y" "usd" (Fin 20)] in
  exists out : DataFrame, metrics_of df = Some out /\ metrics_of out = Some out.
Proof.
  intros df.
  apply (compute_metrics_idempotent df ["x"; "y"] [Fin 10; Fin 20]); reflexivity.
Defined.

(** ** Assets do not influence each other in the grouped columns *)

Lemma series_of_pct_change (ks : list string) (ps : series) (k : string) :
  length ks = length ps ->
  series_of k ks (pct_change_col ks ps)
  = series_mul_scalar (series_of k ks (daily_return_col ks ps)) (Fin 100).
Proof.
  intros. rewrite pct_change_of_daily_return. unfold series_mul_scalar.
  by rewrite series_of_fmap.
Qed.

Lemma series_of_rolling_max_price (ks : list string) (ps : series) (k : string) :
  length ks = length ps ->
  series_of k ks (rolling_max_price_col ks ps) = cummax (series_of k ks ps).
Proof.
  intros Hlen. unfold rolling_max_price_col.
  by apply series_of_group_transform; [|apply length_cummax].
Qed.

(** X19.  No cross-asset leakage in the six grouped columns: when two
    price tables have the same assets on the same rows and the same prices
    for asset [k], then [daily_return], [pct_change], [ma_7], [ma_30],
    [cum_return] and [rolling_max_price] agree on the rows of [k], whatever
    the prices of the other assets are.  ([drawdown] is not among them.) *)
Theorem grouped_metrics_do_not_leak (df df' : DataFrame) (ks : list string)
    (ps ps' : series) (k : string) :
  df !! "coin_id" = Some (StrCol ks) -> df !! "price" = Some (NumCol ps) ->
  df' !! "coin_id" = Some (StrCol ks) -> df' !! "price" = Some (NumCol ps') ->
  length ks = length ps -> length ks = length ps' ->
  series_of k ks ps = series_of k ks ps' ->
  exists out out' : DataFrame,
    metrics_of df = Some out /\ metrics_of df' = Some out' /\
    forall c, c ∈ ["daily_return"; "pct_change"; "ma_7"; "ma_30"; "cum_return";
                   "rolling_max_price"] ->
      exists s s' : series,
        out !! c = Some (NumCol s) /\ out' !! c = Some (NumCol s') /\
        series_of k ks s = series_of k ks s'.
Proof.
  intros Hk Hp Hk' Hp' Hlen Hlen' Hsame.
  exists (metrics_frame ks ps df), (metrics_frame ks ps' df').
  split; [by apply metrics_of_frame|]. split; [by apply metrics_of_frame|].
  intros c Hc. rewrite !elem_of_cons, elem_of_nil in Hc.
  destruct Hc as [->|[->|[->|[->|[->|[->|[]]]]]]]; eexists _, _; (split; [|split]);
    try first [apply metrics_frame_daily_return | apply metrics_frame_pct_change
              | apply metrics_frame_ma_7 | apply metrics_frame_ma_30
              | apply metrics_frame_cum_return | apply metrics_frame_rolling_max_price].
  - by rewrite !series_of_daily_return, Hsame.
  - by rewrite !series_of_pct_change, !series_of_daily_return, Hsame.
  - by rewrite !series_of_ma_col, Hsame.
  - by rewrite !series_of_ma_col, Hsame.
  - by rewrite !series_of_cum_return, Hsame.
  - by rewrite !series_of_rolling_max_price, Hsame.
Qed.

Lemma grouped_metrics_do_not_leak_witness :
  let df := to_frame [mkPriceRow 0 "x" "usd" (Fin 10); mkPriceRow 0 "y" "usd" (Fin 50);
                      mkPriceRow 1 "x" "usd" (Fin 20)] in
  let df' := to_frame [mkPriceRow 0 "x" "usd" (Fin 10); mkPriceRow 0 "y" "usd" (Fin 999);
                       mkPriceRow 1 "x" "usd" (Fin 20)] in
  exists out out' : DataFrame,
    metrics_of df = Some out /\ metrics_of df' = Some out' /\
    forall c, c ∈ ["daily_return"; "pct_change"; "ma_7"; "ma_30"; "cum_return";
                   "rolling_max_price"] ->
      exists s s' : series,
        out !! c = Some (NumCol s) /\ out' !! c = Some (NumCol s') /\
        series_of "x" ["x"; "y"; "x"] s = series_of "x" ["x"; "y"; "x"] s'.
Proof.
  intros df df'.
  apply (grouped_metrics_do_not_leak df df' ["x"; "y"; "x"]
           [Fin 10; Fin 50; Fin 20] [Fin 10; Fin 999; Fin 20] "x"); reflexivity.
Defined.

(** X20.  An asset with a single observation, of price [q]: its
    [daily_return] and [pct_change] are 0, its [ma_7], [ma_30] and
    [rolling_max_price] are [q], and its [cum_return] is missing. *)
Theorem single_observation_asset (df : DataFrame) (ks : list string) (ps : series)
    (k : string) (q : Q) :
  df !! "coin_id" = Some (StrCol ks) ->
  df !! "price" = Some (NumCol ps) ->
  length ks = length ps ->
  series_of k ks ps = [Fin q] ->
  exists (out : DataFrame) (dr pc m7 m30 cr rm : series),
    metrics_of df = Some out /\
    out !! "daily_return" = Some (NumCol dr) /\
    out !! "pct_change" = Some (NumCol pc) /\
    out !! "ma_7" = Some (NumCol m7) /\
    out !! "ma_30" = Some (NumCol m30) /\
    out !! "cum_return" = Some (NumCol cr) /\
    out !! "rolling_max_price" = Some (NumCol rm) /\
    series_of k ks dr = [Fin 0] /\
    series_of k ks pc = [Fin 0] /\
    Forall2 feq (series_of k ks m7) [Fin q] /\
    Forall2 feq (series_of k ks m30) [Fin q] /\
    series_of k ks cr = [NaN] /\
    series_of k ks rm = [Fin q].
Proof.
  intros Hk Hp Hlen Hs.
  exists (metrics_frame ks ps df), (daily_return_col ks ps), (pct_change_col ks ps),
    (ma_col 7 ks ps), (ma_col 30 ks ps), (cum_return_col ks ps),
    (rolling_max_price_col ks ps).
  split; [by apply metrics_of_frame|].
  split; [apply metrics_frame_daily_return|].
  split; [apply metrics_frame_pct_change|].
  split; [apply metrics_frame_ma_7|]. split; [apply metrics_frame_ma_30|].
  split; [apply metrics_frame_cum_return|].
  split; [apply metrics_frame_rolling_max_price|].
  assert (Hmean : feq (Fin (Qsum [q] / inject_Z (Z.of_nat 1))) (Fin q)).
  { unfold feq. simpl. apply Qeq_bool_iff. unfold Qsum. simpl. field. }
  rewrite series_of_pct_change, series_of_daily_return, !series_of_ma_col,
    series_of_cum_return, series_of_rolling_max_price, Hs by done.
  repeat split; try reflexivity; by repeat constructor.
Qed.

Lemma single_observation_asset_witness :
  let df := to_frame [mkPriceRow 0 "x" "usd" (Fin 10); mkPriceRow 0 "y" "usd" (Fin 50);
                      mkPriceRow 1 "x" "usd" (Fin 20)] in
  exists (out : DataFrame) (cr m7 : series),
    metrics_of df = Some out /\
    out !! "cum_return" = Some (NumCol cr) /\
    out !! "ma_7" = Some (NumCol m7) /\
    series_of "y" ["x"; "y"; "x"] cr = [NaN] /\
    Forall2 feq (series_of "y" ["x"; "y"; "x"] m7) [Fin 50].
Proof.
  intros df.
  destruct (single_observation_asset df ["x"; "y"; "x"] [Fin 10; Fin 50; Fin 20]
              "y" 50%Q eq_refl eq_refl eq_refl eq_refl)
    as (out & dr & pc & m7 & m30 & cr & rm & Hout & _ & _ & H7 & _ & Hcr & _ & _ & _
        & Hm7 & _ & Hcrv & _).
  by exists out, cr, m7.
Defined.

(** ** The metadata cache: the other paths *)

Section KeepLast.
Context {A K : Type} `{EqDecision K} (key : A -> K).

Lemma elem_of_drop_duplicates_last (l : list A) (x : A) :
  x ∈ drop_duplicates_last key l -> x ∈ l.
Proof.
  induction l as [|y l IH]; simpl; [done|]. case_decide.
  - intros ?%IH. by apply list_elem_of_further.
  - intros [->|?%IH]%elem_of_cons; [apply list_elem_of_here|by apply list_elem_of_further].
Qed.

(** Of the rows of one key, the last one is kept and no other. *)
Lemma filter_drop_duplicates_last (k : K) (l : list A) :
  filter (fun a => key a = k) (drop_duplicates_last key l)
  = match last (filter (fun a => key a = k) l) with
    | Some x => [x]
    | None => []
    end.
Proof.
  induction l as [|x l IH]; simpl; [done|].
  rewrite (filter_cons _ x l). case_decide as Hin.
  - rewrite IH. case_decide as Hk; [|done].
    destruct (filter (fun a => key a = k) l) as [|y t] eqn:E; [|done].
    exfalso. apply list_elem_of_fmap in Hin as (y & Hy & Hyl).
    assert (Hyf : y ∈ filter (fun a => key a = k) l)
      by (apply list_elem_of_filter; split; [congruence|done]).
    rewrite E in Hyf. by apply elem_of_nil in Hyf.
  - rewrite filter_cons, IH. case_decide as Hk; [|done].
    destruct (filter (fun a => key a = k) l) as [|y t] eqn:E; [done|].
    exfalso. apply Hin. apply list_elem_of_fmap. exists y.
    assert (Hy : y ∈ filter (fun a => key a = k) l) by (rewrite E; apply list_elem_of_here).
    apply list_elem_of_filter in Hy as [Hky Hy]. split; [congruence|done].
Qed.

Lemma drop_duplicates_last_keeps_keys (l : list A) (x : A) :
  x ∈ l -> exists y, y ∈ drop_duplicates_last key l /\ key y = key x.
Proof.
  intros Hx. pose proof (filter_drop_duplicates_last (key x) l) as Hf.
  assert (Hin : x ∈ filter (fun a => key a = key x) l) by by apply list_elem_of_filter.
  destruct (last (filter (fun a => key a = key x) l)) as [y|] eqn:E.
  - exists y.
    assert (Hy : y ∈ filter (fun a => key a = key x) (drop_duplicates_last key l))
      by (rewrite Hf; apply list_elem_of_here).
    apply list_elem_of_filter in Hy as [? ?]. by split.
  - apply last_None in E. rewrite E in Hin. by apply elem_of_nil in Hin.
Qed.

Lemma drop_duplicates_keeps_keys (kp : keep) (l : list A) (x : A) :
  x ∈ l -> exists y, y ∈ drop_duplicates key kp l /\ key y = key x.
Proof.
  intros Hx. destruct kp; simpl.
  - apply drop_duplicates_first_keeps_keys; [done|apply not_elem_of_nil].
  - by apply drop_duplicates_last_keeps_keys.
Qed.
End KeepLast.


Lemma rows_get_state {S : Type} (rows : list (option MetaRow)) (s : S) :
  (rows_get rows s).2 = s.
Proof.
  induction rows as [|[r|] rows IH]; simpl; try done.
  unfold bind. destruct (rows_get rows s) as [[e|l] s1]; simpl in *; by subst.
Qed.

Lemma meta_rows_of_state {S : Type} (data : payload) (s : S) :
  (meta_rows_of data s).2 = s.
Proof.
  destruct data as [[p|] [|k keys]|rows|]; simpl; try done. apply rows_get_state.
Qed.

(** Every way [fetch_coin_metadata] can end: with the snapshot as it is (the
    cache hit), or with a merge of the readable snapshot and some records,
    in a world whose snapshot is the one of the start. *)
Lemma fetch_coin_metadata_shape (env : environment) (coin_ids : list string)
    (w : world) :
  exists (df : list MetaRow) (w' : world),
    fetch_coin_metadata env coin_ids w = (inr df, w') /\
    meta_csv w' = meta_csv w /\
    ((w' = w /\ meta_csv w = Some (Table df))
     \/ exists (kp : keep) (fresh : list MetaRow),
          df = match meta_csv w with
               | Some (Table old) => drop_duplicates coin_id kp (old ++ fresh)
               | _ => fresh
               end).
Proof.
  unfold fetch_coin_metadata. unfold bind at 1.
  assert (Hcache : exists c, cached_snapshot coin_ids w = (inr c, w) /\
            (c = None \/ exists rows, c = Some rows /\ meta_csv w = Some (Table rows))).
  { unfold cached_snapshot, bind, os_path_exists_META_CSV, try_except,
      pd_read_csv_META_CSV.
    destruct (meta_csv w) as [[|rows]|] eqn:E; simpl; rewrite ?E; simpl; eauto.
    match goal with |- context [bool_decide ?P] => destruct (bool_decide P) end;
      simpl; eauto 10. }
  destruct Hcache as (c & -> & [->|(rows & -> & Hrows)]).
  2:{ exists rows, w. split; [done|]. split; [done|]. by left. }
  unfold try_except. unfold bind at 1. unfold time_sleep at 1. cbv beta iota.
  set (w6 := mkWorld (net_log w) (sleep_log w ++ [6%Q]) (rng_calls w) (meta_csv w)).
  unfold bind at 1.
  pose proof (safe_request_meta_csv env markets_url (markets_params coin_ids) 8 2 w6)
    as Hcsv.
  unfold safe_request_default.
  destruct (safe_request env markets_url (markets_params coin_ids) 8 2 w6)
    as [[e|data] w1]; simpl in Hcsv.
  - cbv beta iota. rewrite merge_with_snapshot_run, Hcsv.
    eexists _, _. split; [done|]. split; [done|]. right. eauto.
  - unfold bind at 1. pose proof (meta_rows_of_state data w1) as Hst.
    destruct (meta_rows_of data w1) as [[e|rows] w2]; simpl in Hst; subst w2.
    + cbv beta iota. rewrite merge_with_snapshot_run, Hcsv.
      eexists _, _. split; [done|]. split; [done|]. right. eauto.
    + rewrite merge_with_snapshot_run, Hcsv.
      eexists _, _. split; [done|]. split; [done|]. right. eauto.
Qed.

(** X21.  Whatever happens (cache hit, fresh records, placeholders),
    [fetch_coin_metadata] does not lose an asset of a readable snapshot:
    every [coin_id] of the snapshot is the [coin_id] of a record of the
    result.  It never writes the snapshot either. *)
Theorem fetch_coin_metadata_keeps_snapshot_ids (env : environment)
    (coin_ids : list string) (w : world) (old : list MetaRow) :
  meta_csv w = Some (Table old) ->
  exists (df : list MetaRow) (w' : world),
    fetch_coin_metadata env coin_ids w = (inr df, w') /\
    meta_csv w' = Some (Table old) /\
    forall r, r ∈ old -> exists r', r' ∈ df /\ coin_id r' = coin_id r.
Proof.
  intros Hold.
  destruct (fetch_coin_metadata_shape env coin_ids w)
    as (df & w' & Hrun & Hcsv & Hshape).
  exists df, w'. split; [done|]. split; [congruence|].
  intros r Hr. destruct Hshape as [[_ Hhit]|(kp & fresh & ->)].
  - exists r. split; [|done]. congruence.
  - rewrite Hold. apply drop_duplicates_keeps_keys. apply elem_of_app. by left.
Qed.

Lemma fetch_coin_metadata_keeps_snapshot_ids_witness :
  let env := mkEnv (fun _ _ => inr (mkResponse 200
                      (JsonArray [Some (mkMetaRow (Some "tether") (Some "usdt")
                                          (Some "Tether") (Some 3))])))
                   (fun _ => (1 # 3)%Q) in
  let old := [mkMetaRow (Some "bitcoin") (Some "btc") (Some "Bitcoin") (Some 1)] in
  let w := mkWorld [] [] 0 (Some (Table old)) in
  exists (df : list MetaRow) (w' : world),
    fetch_coin_metadata env ["tether"] w = (inr df, w') /\
    meta_csv w' = Some (Table old) /\
    forall r, r ∈ old -> exists r', r' ∈ df /\ coin_id r' = coin_id r.
Proof.
  intros env old w.
  exact (fetch_coin_metadata_keeps_snapshot_ids env ["tether"] w old eq_refl).
Defined.



(** X23.  [fetch_coin_metadata] either leaves the world exactly as it was
    (the cache hit), or first pauses six seconds and then sends at most
    eight requests, all for the markets endpoint with the requested ids,
    with at most one further sleep per request.  It never writes the
    snapshot. *)
Theorem fetch_coin_metadata_effects (env : environment) (coin_ids : list string)
    (w : world) :
  let w' := (fetch_coin_metadata env coin_ids w).2 in
  meta_csv w' = meta_csv w /\
  (w' = w \/
   exists (k : nat) (sleeps : list Q),
     (k <= 8)%nat /\
     net_log w' = net_log w ++ replicate k (request_of markets_url (markets_params coin_ids)) /\
     sleep_log w' = sleep_log w ++ 6%Q :: sleeps /\
     (length sleeps <= k)%nat /\
     Forall (fun s => (1 <= s)%Q) sleeps).
Proof.
  cbv zeta. destruct (fetch_coin_metadata env coin_ids w) as [out w'] eqn:Hrun.
  simpl. revert Hrun.
  unfold fetch_coin_metadata. unfold bind at 1.
  destruct (cached_snapshot_world coin_ids w) as [[rows|] ->];
    [intros [= <- <-]; by split; [|left]|].
  unfold try_except. unfold bind at 1. unfold time_sleep at 1. cbv beta iota.
  set (w6 := mkWorld (net_log w) (sleep_log w ++ [6%Q]) (rng_calls w) (meta_csv w)).
  unfold bind at 1. unfold safe_request_default, safe_request.
  destruct (for_range (Z.to_nat 8) 0 _ _ w6) as [res w1] eqn:Hloop.
  destruct (safe_request_loop_spec _ _ _ _ _ _ _ _ _ _ Hloop)
    as (k & sleeps & Hk & Hnet & Hsl & Hall & Hrng & Hcsv & Hres).
  assert (Hlen : (length sleeps <= k)%nat).
  { destruct res; [by destruct Hres as (_ & _ & ?)|]. destruct Hres as [? _]. lia. }
  assert (Hfinal : w' = w1 ->
    meta_csv w' = meta_csv w /\
    (w' = w \/
     exists (k : nat) (sleeps : list Q),
       (k <= 8)%nat /\
       net_log w' = net_log w ++ replicate k (request_of markets_url (markets_params coin_ids)) /\
       sleep_log w' = sleep_log w ++ 6%Q :: sleeps /\
       (length sleeps <= k)%nat /\
       Forall (fun s => (1 <= s)%Q) sleeps)).
  { intros ->. split; [by rewrite Hcsv|]. right. exists k, sleeps.
    split; [done|]. split; [done|].
    split; [rewrite Hsl; simpl; by rewrite <- app_assoc|]. by split. }
  destruct res as [e|data].
  - cbv beta iota. rewrite merge_with_snapshot_run. intros [= _ <-]. by apply Hfinal.
  - unfold bind at 1. pose proof (meta_rows_of_state data w1) as Hst.
    destruct (meta_rows_of data w1) as [[e|rows] w2]; simpl in Hst; subst w2;
      cbv beta iota; rewrite merge_with_snapshot_run; intros [= _ <-]; by apply Hfinal.
Qed.

(** ** The placeholders *)












(** ** The orchestrator *)

Lemma data_get_prices_state {S : Type} (data : payload) (s : S) :
  (data_get_prices data s).2 = s.
Proof. by destruct data as [[p|] keys|rows|]. Qed.

Lemma fetch_market_chart_meta_csv (env : environment) (coin vs days : string) (w : world) :
  meta_csv (fetch_market_chart env coin vs days w).2 = meta_csv w.
Proof.
  unfold fetch_market_chart. cbv zeta. unfold bind at 1.
  pose proof (safe_request_meta_csv env
    (COINGECKO_BASE +:+ "/coins/" +:+ coin +:+ "/market_chart")
    [("vs_currency", vs); ("days", days); ("interval", "daily")] 8 2 w) as Hcsv.
  unfold safe_request_default.
  destruct (safe_request env _ _ 8 2 w) as [[e|data] w1]; simpl in Hcsv; [done|].
  unfold bind. pose proof (data_get_prices_state data w1) as Hst.
  destruct (data_get_prices data w1) as [[e|prices] w2]; simpl in Hst; subst w2; [done|].
  by destruct (bool_decide (prices = [])).
Qed.

Lemma fetch_frames_meta_csv (env : environment) (days : string) (coin_ids : list string)
    (frames : list (list PriceRow)) (w : world) :
  meta_csv (fetch_frames env days coin_ids frames w).2 = meta_csv w.
Proof.
  revert frames w. induction coin_ids as [|cid ids IH]; intros frames w; simpl; [done|].
  unfold bind at 1.
  pose proof (fetch_market_chart_meta_csv env cid VS_CURRENCY days w) as Hcsv.
  destruct (fetch_market_chart env cid VS_CURRENCY days w) as [[e|df_c] w1];
    simpl in Hcsv; [done|].
  destruct (bool_decide (df_c = [])); [by rewrite IH|].
  unfold bind, time_sleep. by rewrite IH.
Qed.

(** The frames kept by the loop are not empty, and they come after the
    frames it started with. *)
Lemma fetch_frames_nonempty (env : environment) (days : string) (coin_ids : list string)
    (frames out : list (list PriceRow)) (w w1 : world) :
  fetch_frames env days coin_ids frames w = (inr out, w1) ->
  exists more, out = frames ++ more /\ Forall (fun f => f <> []) more.
Proof.
  revert frames w. induction coin_ids as [|cid ids IH]; intros frames w; simpl.
  - intros [= <- <-]. exists []. by rewrite app_nil_r.
  - unfold bind at 1.
    destruct (fetch_market_chart env cid VS_CURRENCY days w) as [[e|df_c] w2]; [done|].
    case_bool_decide as Hempty; [apply IH|].
    unfold bind, time_sleep. intros Hrun. apply IH in Hrun as (more & -> & Hmore).
    exists (df_c :: more). rewrite <- app_assoc. split; [done|]. by constructor.
Qed.

Lemma to_frame_coin_id (rows : list PriceRow) :
  to_frame rows !! "coin_id" = Some (StrCol (row_coin_id <$> rows)).
Proof. reflexivity. Qed.

Lemma to_frame_price (rows : list PriceRow) :
  to_frame rows !! "price" = Some (NumCol (row_price <$> rows)).
Proof. reflexivity. Qed.

(** The three ways a run can go, after the loop over the assets. *)
Lemma run_etl_after_the_loop (env : environment) (coin_ids : option (list string))
    (days : string) (s : etl_state) :
  let ids := match coin_ids with None => DEFAULT_COINS | Some ids => ids end in
  match fetch_frames env days ids [] (etl_world s) with
  | (inl e, w1) =>
      run_etl env coin_ids days s = (inl e, mkEtl w1 (etl_heap s) (prices_csv s))
  | (inr [], w1) =>
      run_etl env coin_ids days s
      = (inl (RuntimeError "Nenhum dado retornado."),
         mkEtl w1 (etl_heap s) (prices_csv s))
  | (inr (f :: fs), w1) =>
      let rows := concat (f :: fs) in
      let out := metrics_frame (row_coin_id <$> rows) (row_price <$> rows) (to_frame rows) in
      exists (work : DataFrame) (meta : list MetaRow) (w2 : world),
        fetch_coin_metadata env (sorted_unique (row_coin_id <$> rows)) (time_sleep 4 w1).2
        = (inr meta, w2) /\
        run_etl env coin_ids days s
        = (inr tt,
           mkEtl (mkWorld (net_log w2) (sleep_log w2) (rng_calls w2) (Some (Table meta)))
                 (etl_heap s ++ [to_frame rows; work; out])
                 (Some out))
  end.
Proof.
  cbv zeta.
  set (ids := match coin_ids with None => DEFAULT_COINS | Some ids => ids end).
  assert (Hstep : forall r w1, fetch_frames env days ids [] (etl_world s) = (r, w1) ->
    run_etl env coin_ids days s
    = match r with
      | inl e => (inl e, mkEtl w1 (etl_heap s) (prices_csv s))
      | inr frames =>
          (if bool_decide (frames = []) then raise (RuntimeError "Nenhum dado retornado.")
           else
             let* df_all := lift_heap (alloc (to_frame (concat frames))) in
             let* df_all := lift_heap (compute_metrics df_all) in
             to_csv_PRICES_CSV df_all ;;;
             lift_world (time_sleep 4) ;;;
             let* ids := lift_heap (unique_coin_ids df_all) in
             let* meta := lift_world (fetch_coin_metadata env ids) in
             to_csv_META_CSV meta) (mkEtl w1 (etl_heap s) (prices_csv s))
      end).
  { intros r w1 Hloop. unfold run_etl. cbv zeta. fold ids.
    unfold bind at 1. unfold lift_world at 1. rewrite Hloop. by destruct r. }
  destruct (fetch_frames env days ids [] (etl_world s)) as [[e|[|f fs]] w1] eqn:Hloop;
    rewrite (Hstep _ _ eq_refl); try done.
  rewrite bool_decide_eq_false_2 by done. clear Hstep.
  set (rows := concat (f :: fs)).
  destruct (compute_metrics_run (etl_heap s ++ [to_frame rows]) (length (etl_heap s))
              (to_frame rows) (row_coin_id <$> rows) (row_price <$> rows))
    as [work Hrun]; [apply lookup_last|apply to_frame_coin_id|apply to_frame_price|].
  set (out := metrics_frame (row_coin_id <$> rows) (row_price <$> rows) (to_frame rows))
    in *.
  destruct (fetch_coin_metadata_returns env (sorted_unique (row_coin_id <$> rows))
              (time_sleep 4 w1).2) as (meta & w2 & Hmeta).
  exists work, meta, w2. split; [exact Hmeta|].
  unfold bind at 1. unfold lift_heap at 1, alloc. cbn [etl_heap etl_world prices_csv].
  unfold bind at 1. unfold lift_heap at 1. cbn [etl_heap etl_world prices_csv].
  rewrite Hrun. rewrite length_app. cbn [length]. rewrite <- app_assoc. cbn [app].
  set (h3 := etl_heap s ++ [to_frame rows; work; out]).
  assert (Hout : h3 !! S (length (etl_heap s) + 1) = Some out).
  { unfold h3. rewrite lookup_app_r by lia.
    by replace (S (length (etl_heap s) + 1) - length (etl_heap s))%nat with 2%nat by lia. }
  unfold bind at 1. unfold to_csv_PRICES_CSV. unfold bind at 1.
  unfold lift_heap at 1, deref. cbn [etl_heap etl_world prices_csv]. rewrite Hout.
  cbn [etl_heap etl_world prices_csv].
  unfold bind at 1. unfold lift_world at 1, time_sleep at 1.
  cbn [etl_heap etl_world prices_csv].
  unfold bind at 1. unfold lift_heap at 1, unique_coin_ids, getitem, deref.
  unfold bind at 1 2. cbn [etl_heap etl_world prices_csv]. rewrite Hout.
  assert (Hks : out !! "coin_id" = Some (StrCol (row_coin_id <$> rows))).
  { unfold out. rewrite metrics_frame_other; [apply to_frame_coin_id|].
    intros Hc. apply derived_column_cases in Hc.
    repeat (destruct Hc as [Hc|Hc]; [discriminate|]). discriminate. }
  rewrite Hks. unfold ret at 1 2. cbn [etl_heap etl_world prices_csv].
  unfold bind at 1. unfold lift_world at 1. cbn [etl_heap etl_world prices_csv].
  unfold time_sleep in Hmeta. simpl in Hmeta. rewrite Hmeta. reflexivity.
Qed.

(** ** The orchestrator: chart requests that are answered at once *)

Lemma fetch_market_chart_answered (env : environment) (coin days : string) (w : world)
    (points : option (list (Z * pyfloat))) (keys : list string) :
  server env (length (net_log w)) (chart_request days coin)
  = inr (mkResponse 200 (JsonObject points keys)) ->
  fetch_market_chart env coin VS_CURRENCY days w
  = (inr (chart_frame coin VS_CURRENCY (default [] points)),
     after_request (chart_request days coin) w).
Proof.
  intros Hr. unfold chart_request in Hr.
  unfold fetch_market_chart. cbv zeta. unfold bind at 1.
  unfold safe_request_default, safe_request.
  change (Z.to_nat 8) with 8%nat.
  rewrite (for_range_200 env _ _ 2 7 0 _ w _ Hr eq_refl).
  cbn [json]. unfold bind. destruct points as [points|]; simpl; [|done].
  case_bool_decide as Hp; [by subst|done].
Qed.

Lemma fetch_frames_answered (env : environment) (days : string)
    (chart : string -> list (Z * pyfloat)) (ids : list string)
    (frames : list (list PriceRow)) (w : world) :
  (forall n coin, coin ∈ ids ->
     exists points keys,
       server env n (chart_request days coin)
       = inr (mkResponse 200 (JsonObject points keys)) /\
       default [] points = chart coin) ->
  let got := filter (fun f => f <> [])
               ((fun c => chart_frame c VS_CURRENCY (chart c)) <$> ids) in
  exists w',
    fetch_frames env days ids frames w = (inr (frames ++ got), w') /\
    net_log w' = net_log w ++ (chart_request days <$> ids) /\
    sleep_log w' = sleep_log w ++ replicate (length got) (11 # 10)%Q /\
    rng_calls w' = rng_calls w /\
    meta_csv w' = meta_csv w.
Proof.
  cbv zeta. revert frames w. induction ids as [|c ids IH]; intros frames w Hsrv.
  - exists w. simpl. by rewrite !app_nil_r.
  - destruct (Hsrv (length (net_log w)) c (list_elem_of_here _ _))
      as (points & keys & Hr & Hpts).
    cbn [fetch_frames]. unfold bind at 1.
    rewrite (fetch_market_chart_answered env c days w points keys Hr), Hpts.
    rewrite fmap_cons, filter_cons.
    assert (Hrest : forall n coin, coin ∈ ids ->
              exists points keys,
                server env n (chart_request days coin)
                = inr (mkResponse 200 (JsonObject points keys)) /\
                default [] points = chart coin)
      by (intros n coin Hin; apply Hsrv; by apply list_elem_of_further).
    case_bool_decide as Hempty.
    + rewrite decide_False by (by intros ?).
      destruct (IH frames (after_request (chart_request days c) w) Hrest)
        as (w' & Hrun & Hnet & Hsl & Hrng & Hcsv).
      exists w'. split; [done|]. rewrite Hnet, Hsl, Hrng, Hcsv. simpl.
      by rewrite <- app_assoc.
    + rewrite decide_True by done.
      unfold bind at 1. unfold time_sleep at 1. cbv beta iota.
      set (w1 := mkWorld _ _ _ _).
      destruct (IH (frames ++ [chart_frame c VS_CURRENCY (chart c)]) w1 Hrest)
        as (w' & Hrun & Hnet & Hsl & Hrng & Hcsv).
      exists w'. rewrite Hrun, Hnet, Hsl, Hrng, Hcsv. simpl.
      by rewrite <- !app_assoc.
Qed.

(** X25.  When every chart request is answered at once by 200 with an
    object without price points (no ["prices"] key, or an empty list),
    [run_etl] sends one request per asset, in the order of the assets and
    without a pause, then raises [RuntimeError("Nenhum dado retornado.")];
    neither file is written.  With an empty list of assets it raises
    without a request. *)
Theorem run_etl_without_data (env : environment) (coin_ids : option (list string))
    (days : string) (s : etl_state) :
  let ids := match coin_ids with None => DEFAULT_COINS | Some ids => ids end in
  (forall n coin, coin ∈ ids ->
     exists points keys,
       server env n (chart_request days coin)
       = inr (mkResponse 200 (JsonObject points keys)) /\
       default [] points = []) ->
  exists w1,
    run_etl env coin_ids days s
    = (inl (RuntimeError "Nenhum dado retornado."),
       mkEtl w1 (etl_heap s) (prices_csv s)) /\
    net_log w1 = net_log (etl_world s) ++ (chart_request days <$> ids) /\
    sleep_log w1 = sleep_log (etl_world s) /\
    rng_calls w1 = rng_calls (etl_world s) /\
    meta_csv w1 = meta_csv (etl_world s).
Proof.
  intros ids Hsrv.
  destruct (fetch_frames_answered env days (fun _ => []) ids [] (etl_world s) Hsrv)
    as (w1 & Hloop & Hnet & Hsl & Hrng & Hcsv).
  assert (Hnone : filter (fun f : list PriceRow => f <> [])
                    ((fun c => chart_frame c VS_CURRENCY []) <$> ids) = []).
  { clear. induction ids as [|c ids IH]; [done|].
    rewrite fmap_cons, filter_cons. by rewrite decide_False by (by intros ?). }
  rewrite Hnone in Hloop, Hsl. simpl in Hloop, Hsl. rewrite app_nil_r in Hsl.
  exists w1. split; [|done].
  pose proof (run_etl_after_the_loop env coin_ids days s) as Hrun.
  cbv zeta in Hrun. fold ids in Hrun. by rewrite Hloop in Hrun.
Qed.

Lemma run_etl_without_data_witness :
  let env := mkEnv (fun _ _ => inr (mkResponse 200 (JsonObject None ["status"])))
                   (fun _ => (1 # 3)%Q) in
  let s := mkEtl (mkWorld [] [] 0 None) [] None in
  exists w1,
    run_etl env (Some ["bitcoin"; "tether"]) "30" s
    = (inl (RuntimeError "Nenhum dado retornado."), mkEtl w1 [] None) /\
    net_log w1 = [chart_request "30" "bitcoin"; chart_request "30" "tether"] /\
    sleep_log w1 = [] /\
    rng_calls w1 = 0%nat /\
    meta_csv w1 = None.
Proof.
  intros env s.
  apply (run_etl_without_data env (Some ["bitcoin"; "tether"]) "30" s).
  intros n coin _. by exists None, ["status"].
Defined.

(** ** The orchestrator: the assets asked of the metadata *)











(** ** The orchestrator: what a run leaves behind *)





(** X28.  A run that returns has written both files, and it has not lost
    an asset of the metadata it found: every [coin_id] of a readable
    [META_CSV] of the start is the [coin_id] of a record of the [META_CSV]
    it leaves, whether the assets of this run are in it or not. *)
Theorem run_etl_keeps_snapshot_ids (env : environment)
    (coin_ids : option (list string)) (days : string) (s s' : etl_state)
    (old : list MetaRow) :
  meta_csv (etl_world s) = Some (Table old) ->
  run_etl env coin_ids days s = (inr tt, s') ->
  is_Some (prices_csv s') /\
  exists meta : list MetaRow,
    meta_csv (etl_world s') = Some (Table meta) /\
    forall r, r ∈ old -> exists r', r' ∈ meta /\ coin_id r' = coin_id r.
Proof.
  intros Hold Hrun.
  set (ids := match coin_ids with None => DEFAULT_COINS | Some ids => ids end).
  pose proof (run_etl_after_the_loop env coin_ids days s) as Hcases.
  cbv zeta in Hcases. fold ids in Hcases.
  pose proof (fetch_frames_meta_csv env days ids [] (etl_world s)) as Hcsv.
  destruct (fetch_frames env days ids [] (etl_world s)) as [[e1|[|f fs]] w1];
    simpl in Hcsv; [congruence..|].
  destruct Hcases as (work & meta & w2 & Hmeta & Hret).
  rewrite Hret in Hrun. injection Hrun as <-. cbn [prices_csv etl_world meta_csv].
  split; [done|]. exists meta. split; [done|].
  intros r Hr.
  destruct (fetch_coin_metadata_shape env
              (sorted_unique (row_coin_id <$> concat (f :: fs))) (time_sleep 4 w1).2)
    as (df & w' & Hrun & _ & Hshape).
  rewrite Hmeta in Hrun. injection Hrun as <- <-.
  assert (Hsnap : meta_csv (time_sleep 4 w1).2 = Some (Table old))
    by (unfold time_sleep; simpl; congruence).
  destruct Hshape as [[_ Hhit]|(kp & fresh & ->)].
  - exists r. split; [|done]. congruence.
  - rewrite Hsnap. apply drop_duplicates_keeps_keys. apply elem_of_app. by left.
Qed.

Lemma run_etl_keeps_snapshot_ids_witness :
  let env := mkEnv (fun n _ => match n with
                               | 0%nat => inr (mkResponse 200
                                                 (JsonObject (Some [(0, Fin 10)]) []))
                               | _ => inr (mkResponse 200
                                             (JsonArray [Some (mkMetaRow (Some "tether")
                                                (Some "usdt") (Some "Tether") (Some 3))]))
                               end)
                   (fun _ => (1 # 3)%Q) in
  let old := [mkMetaRow (Some "bitcoin") (Some "btc") (Some "Bitcoin") (Some 1)] in
  let s := mkEtl (mkWorld [] [] 0 (Some (Table old))) [] None in
  exists (s' : etl_state) (meta : list MetaRow),
    run_etl env (Some ["tether"]) "30" s = (inr tt, s') /\
    is_Some (prices_csv s') /\
    meta_csv (etl_world s') = Some (Table meta) /\
    forall r, r ∈ old -> exists r', r' ∈ meta /\ coin_id r' = coin_id r.
Proof.
  intros env old s.
  destruct (run_etl env (Some ["tether"]) "30" s) as [[e|[]] s'] eqn:Hrun.
  - vm_compute in Hrun. discriminate.
  - destruct (run_etl_keeps_snapshot_ids env (Some ["tether"]) "30" s s' old eq_refl Hrun)
      as (Hprices & meta & Hmeta & Hkept).
    by exists s', meta.
Defined.
